(** * PasteImagesAsWebP: the settings dialogs ([gui.py]) and the slider panel
      ([widgets/image_slider_box.py])

    A shallow embedding of the dialog code: Python integers are [Z], the two
    kinds of numbers that occur as scale factors ([int] and [float]) are a
    small tagged union with binary64 rounding written out, the process-wide
    [config] dictionary is a [gmap string pyval], and the methods that mutate
    [self], [config] or talk to the user run in a state-and-exception monad
    over a [World]. *)

From Stdlib Require Import ZArith Lia List Bool OrdersEx.
From stdpp Require Import gmap strings list sorting.

Local Open Scope Z_scope.

(** ** Python numbers *)

(** [round53 k] is the integer nearest to [k] that has at most 53 significant
    bits, ties going to the even significand: the rounding CPython applies when
    it converts an [int] to a [float], and the one binary64 multiplication
    applies to its exact result. *)
Definition round53 (k : Z) : Z :=
  let a := Z.abs k in
  if a <? 2 ^ 53 then k
  else
    let s := Z.log2 a - 52 in
    let q := Z.shiftr a s in
    let r := a - Z.shiftl q s in
    let half := Z.shiftl 1 (s - 1) in
    let m := if r <? half then q
             else if half <? r then q + 1
             else if Z.even q then q else q + 1 in
    Z.sgn k * Z.shiftl m s.

(** The floats met here are integers multiplied by the float factors of the
    scale grid, so every one of them is a multiple of 1/8: [Fin8 e] is the
    double [e / 8].  [Inf] is an infinity of either sign. *)
Inductive pyfloat : Type :=
| Fin8 (e : Z)
| Inf.

Inductive pynum : Type :=
| PInt (n : Z)
| PFloat (x : pyfloat).

(** [float_overflows e8]: the magnitude of [e8 / 8] reaches [2 ^ 1024], which
    is beyond the largest finite double. *)
Definition float_overflows (e8 : Z) : bool := 8 * 2 ^ 1024 <=? Z.abs e8.

(** [float(w)]: [None] is [OverflowError] (int too large to convert). *)
Definition float_of_int (w : Z) : option Z :=
  let r := round53 w in
  if float_overflows (8 * r) then None else Some r.

(** The product of the integer-valued double [x] and the double [e / 8]. *)
Definition float_mul (x : Z) (e : Z) : pyfloat :=
  let p := round53 (x * e) in
  if float_overflows p then Inf else Fin8 p.

(** A scale factor: an [int], or the finite [float] [e / 8]. *)
Inductive Factor : Type :=
| IntFactor (n : Z)
| FloatFactor (e : Z).

(** [w * factor] for an [int] [w]: exact for an [int] factor; for a [float]
    factor [w] is converted first.  [None] is [OverflowError]. *)
Definition py_mul (w : Z) (factor : Factor) : option pynum :=
  match factor with
  | IntFactor n => Some (PInt (w * n))
  | FloatFactor e =>
      match float_of_int w with
      | Some x => Some (PFloat (float_mul x e))
      | None => None
      end
  end.

(** [int(x)]: truncation toward zero; [None] is [OverflowError] (infinity). *)
Definition py_int (x : pynum) : option Z :=
  match x with
  | PInt n => Some n
  | PFloat (Fin8 e) => Some (Z.quot e 8)
  | PFloat Inf => None
  end.

(** [round(x)]: to the nearest integer, ties to the even one. *)
Definition py_round (x : pynum) : option Z :=
  match x with
  | PInt n => Some n
  | PFloat (Fin8 e) =>
      let q := e / 8 in
      let r := e mod 8 in
      Some (if r <? 4 then q
            else if 4 <? r then q + 1
            else if Z.even q then q else q + 1)
  | PFloat Inf => None
  end.

(** The tuple [factors] of [create_scale_options_grid], 1/8 to 2:
    four floats and the two ints [1] and [2]. *)
Definition factors : list Factor :=
  [FloatFactor 1; FloatFactor 2; FloatFactor 4; IntFactor 1;
   FloatFactor 12; IntFactor 2].

(** ** Exceptions and outcomes *)

Inductive exn : Type :=
| OverflowError
| TypeError
| KeyError (key : string).

(** What a method leaves behind: the state it reached, and the exception that
    left it, if one did. *)
Inductive Outcome (S : Type) : Type :=
| Done (s : S)
| Raised (e : exn) (s : S).
Arguments Done {S} s.
Arguments Raised {S} e s.

Definition state_of {S} (o : Outcome S) : S :=
  match o with Done s => s | Raised _ s => s end.

Definition raised {S} (o : Outcome S) : option exn :=
  match o with Done _ => None | Raised e _ => Some e end.

Definition and_then {S} (o : Outcome S) (k : S -> Outcome S) : Outcome S :=
  match o with Done s => k s | Raised e s => Raised e s end.

(** ** RichSlider *)

Module RichSlider.

Record t : Type := Build { value : Z; limit : Z }.

Definition clamp (v lo hi : Z) : Z := Z.max lo (Z.min v hi).

(** Modelled from the spec: [widgets/rich_slider.py] is missing.  The spec's
    ParameterSlider is a bounded integer control [{value, limit}] whose
    setter stores [clamp(v, 0, limit)]. *)
Definition set_value (s : t) (v : Z) : t :=
  {| value := clamp v 0 (limit s); limit := limit s |}.

Definition valid (s : t) : Prop := 0 <= value s <= limit s.

End RichSlider.

(** ** Python values, as the configuration holds them *)

#[local] Unset Elimination Schemes.
Inductive pyval : Type :=
| PyNone
| PyBool (b : bool)
| PyInt (n : Z)
| PyStr (s : string)
| PyList (l : list pyval)
| PyDict (d : list (string * pyval)).
#[local] Set Elimination Schemes.

(** The int a Python value stands for where an [int] is expected: an [int]
    itself, a [bool] as 0 or 1; [None] for every other value, [None] of Python
    included, which such a call refuses with [TypeError].  The size of the
    int is not looked at here: the slider's setter, modelled from the spec,
    takes every int and clamps it; a call that goes to Qt directly checks
    [in_c_int] next to it. *)
Definition as_int (v : option pyval) : option Z :=
  match v with
  | Some (PyInt n) => Some n
  | Some (PyBool b) => Some (Z.b2z b)
  | _ => None
  end.

(** An int that fits the C [int] of a Qt call; PyQt refuses any other with
    [OverflowError]. *)
Definition in_c_int (v : Z) : bool := (- 2 ^ 31 <=? v) && (v <? 2 ^ 31).

(** The same for a setter that takes a [bool]. *)
Definition as_bool (v : option pyval) : option bool :=
  match v with
  | Some (PyBool b) => Some b
  | Some (PyInt n) => Some (negb (n =? 0))
  | _ => None
  end.

(** ** ImageSliderBox *)

Module ImageSliderBox.

(** [self._sliders], a dict with exactly these three keys, in this order. *)
Record t : Type := Build {
  image_width : RichSlider.t;
  image_height : RichSlider.t;
  image_quality : RichSlider.t;
}.

Definition init (max_width max_height : Z) : t :=
  {| image_width := RichSlider.Build 0 max_width;
     image_height := RichSlider.Build 0 max_height;
     image_quality := RichSlider.Build 0 100 |}.

Definition quality (b : t) : Z := RichSlider.value (image_quality b).
Definition width (b : t) : Z := RichSlider.value (image_width b).
Definition height (b : t) : Z := RichSlider.value (image_height b).

Definition set_width (b : t) (v : Z) : t :=
  {| image_width := RichSlider.set_value (image_width b) v;
     image_height := image_height b;
     image_quality := image_quality b |}.

Definition set_height (b : t) (v : Z) : t :=
  {| image_width := image_width b;
     image_height := RichSlider.set_value (image_height b) v;
     image_quality := image_quality b |}.

Definition set_quality (b : t) (v : Z) : t :=
  {| image_width := image_width b;
     image_height := image_height b;
     image_quality := RichSlider.set_value (image_quality b) v |}.

Definition as_dict (b : t) : gmap string pyval :=
  <["image_quality" := PyInt (quality b)]>
    (<["image_height" := PyInt (height b)]>
       (<["image_width" := PyInt (width b)]> ∅)).

(** [slider.value = config.get(key)]: [None] (a missing key) or a value
    that is not a number is a [TypeError] of the setter. *)
Definition assign (set : t -> Z -> t) (config : gmap string pyval)
    (key : string) (b : t) : Outcome t :=
  match as_int (config !! key) with
  | Some v => Done (set b v)
  | None => Raised TypeError b
  end.

Definition populate (config : gmap string pyval) (b : t) : Outcome t :=
  and_then (and_then (assign set_width config "image_width" b)
                     (assign set_height config "image_height"))
           (assign set_quality config "image_quality").

Definition valid (b : t) : Prop :=
  RichSlider.valid (image_width b) /\ RichSlider.valid (image_height b)
  /\ RichSlider.valid (image_quality b).

(** Two states of one panel: the limits are those of the constructor. *)
Definition same_limits (b1 b2 : t) : Prop :=
  RichSlider.limit (image_width b1) = RichSlider.limit (image_width b2)
  /\ RichSlider.limit (image_height b1) = RichSlider.limit (image_height b2)
  /\ RichSlider.limit (image_quality b1) = RichSlider.limit (image_quality b2).

End ImageSliderBox.

(** ** PasteDialog.adjust_sliders *)

Record ImageDimensions : Type := { width : Z; height : Z }.

(** [int(dim * factor)] *)
Definition scaled (dim : Z) (factor : Factor) : option Z :=
  match py_mul dim factor with
  | Some p => py_int p
  | None => None
  end.

(** The spec's words for the same value: [round(dim * f)]. *)
Definition spec_scaled (dim : Z) (factor : Factor) : option Z :=
  match py_mul dim factor with
  | Some p => py_round p
  | None => None
  end.

Definition adjust_width (image : ImageDimensions) (factor : Factor)
    (sl : ImageSliderBox.t) : Outcome ImageSliderBox.t :=
  if 0 <? ImageSliderBox.width sl then
    match scaled (width image) factor with
    | Some v => Done (ImageSliderBox.set_width sl v)
    | None => Raised OverflowError sl
    end
  else Done sl.

Definition adjust_height (image : ImageDimensions) (factor : Factor)
    (sl : ImageSliderBox.t) : Outcome ImageSliderBox.t :=
  if 0 <? ImageSliderBox.height sl then
    match scaled (height image) factor with
    | Some v => Done (ImageSliderBox.set_height sl v)
    | None => Raised OverflowError sl
    end
  else Done sl.

(** [self.image] and [self._sliders] are all of [self] the method touches. *)
Definition adjust_sliders (image : ImageDimensions) (sl : ImageSliderBox.t)
    (factor : Factor) : Outcome ImageSliderBox.t :=
  and_then (adjust_width image factor sl) (adjust_height image factor).

(** Scale buttons pressed one after the other; a press that raises leaves the
    panel as it was at the raise, and the next press starts from there. *)
Definition press_all (image : ImageDimensions) (sl : ImageSliderBox.t)
    (fs : list Factor) : ImageSliderBox.t :=
  fold_left (fun s f => state_of (adjust_sliders image s f)) fs sl.

(** ** get_all_keys *)

(** A note, as far as the dialogs look at it: its field names and their
    contents, in the order of the note type. *)
Record Note : Type := { note_items : list (string * string) }.

Definition keys (note : Note) : list string := (note_items note).*1.

(** Python compares [str] by code points; on the bytes of UTF-8 text that is
    the lexicographic order of the bytes. *)
Definition str_le (s1 s2 : string) : Prop := String_as_OT.compare s1 s2 <> Gt.
Definition str_lt (s1 s2 : string) : Prop := String_as_OT.compare s1 s2 = Lt.

#[global] Instance str_le_dec : RelDecision str_le :=
  fun s1 s2 => decide (String_as_OT.compare s1 s2 <> Gt).

(** [sorted(...)] of a collection of strings. *)
Definition sorted (l : list string) : list string := merge_sort str_le l.

(** The keys of all the notes chained, collected in a set, and sorted. *)
Definition get_all_keys (notes : list Note) : list string :=
  sorted (elements (list_to_set (concat (keys <$> notes)) : gset string)).

(** ** The widgets next to the sliders *)

Module FieldSelector.

(** Modelled from the spec: [widgets/field_selector.py] is missing.  The
    spec's field selection state is an enabled flag, the available names in
    order, and the names ticked among them. *)
Record t : Type := Build {
  isChecked : bool;
  available : list string;
  ticked : list string;
}.

(** Modelled from the spec: [selectedFields()] returns only the names that
    are checked, as an ordered sequence; the order is that of the available
    names, and a ticked name that is not available is not in it. *)
Definition selected_fields (fs : t) : list string :=
  filter (fun name => name ∈ ticked fs) (available fs).

(** Modelled from the spec: [addFields(names)] populates the available names
    from the list it is given. *)
Definition add_fields (fs : t) (names : list string) : t :=
  {| isChecked := isChecked fs; available := available fs ++ names;
     ticked := ticked fs |}.

Definition saved_names (v : option pyval) : list string :=
  match v with
  | Some (PyList l) =>
      omap (fun x => match x with PyStr s => Some s | _ => None end) l
  | _ => []
  end.

(** Modelled from the spec: [setFields(selected)] pre-checks a saved subset
    and ignores names that are no longer present (they stay out of
    [selected_fields] by its filter); it does not raise. *)
Definition set_fields (fs : t) (v : option pyval) : t :=
  {| isChecked := isChecked fs; available := available fs;
     ticked := saved_names v |}.

Definition set_checked (fs : t) (b : bool) : t :=
  {| isChecked := b; available := available fs; ticked := ticked fs |}.

Definition tick (fs : t) (name : string) (b : bool) : t :=
  {| isChecked := isChecked fs; available := available fs;
     ticked := if b then name :: ticked fs
               else filter (fun n => n <> name) (ticked fs) |}.

End FieldSelector.

Module ComboBox.

(** A [QComboBox]: the items with their user data, and the current index
    ([-1] when there is no current item). *)
Record t : Type := Build {
  items : list (string * pyval);
  currentIndex : Z;
}.

Definition setCurrentIndex (c : t) (i : Z) : t :=
  {| items := items c;
     currentIndex :=
       if (0 <=? i) && (i <? Z.of_nat (length (items c))) then i else -1 |}.

Definition currentData (c : t) : pyval :=
  if currentIndex c <? 0 then PyNone
  else match items c !! Z.to_nat (currentIndex c) with
       | Some (_, data) => data
       | None => PyNone
       end.

End ComboBox.

(** ** Dialogs *)

Inductive Widget : Type :=
| W_sliders
| W_presets_editor
| W_field_selector
| W_reconvert_checkbox
| W_scale_settings
| W_additional_settings.

(** What each subclass adds to [SettingsDialog]. *)
Inductive Kind : Type :=
| BulkConvertDialog (_field_selector : FieldSelector.t)
    (_reconvert_checkbox : bool) (selected_notes : list Note)
| PasteDialog (image : ImageDimensions)
| SettingsMenuDialog (when_show_dialog_combo_box : ComboBox.t)
    (filename_pattern_combo_box : ComboBox.t)
    (checkboxes : list (string * bool)).

(** [QDialog]'s result; [Running] until [accept] or [reject] of [QDialog]. *)
Inductive DialogResult : Type := Running | Accepted | Rejected.

Record Dialog : Type := {
  _sliders : ImageSliderBox.t;
  presets_editor : list pyval;
  _main_vbox : list Widget;
  has_layout : bool;
  accepted_connected : bool;
  rejected_connected : bool;
  ok_focused : bool;
  kind : Kind;
  result : DialogResult;
}.

Definition with_sliders (d : Dialog) (s : ImageSliderBox.t) : Dialog :=
  {| _sliders := s; presets_editor := presets_editor d;
     _main_vbox := _main_vbox d; has_layout := has_layout d;
     accepted_connected := accepted_connected d;
     rejected_connected := rejected_connected d;
     ok_focused := ok_focused d; kind := kind d; result := result d |}.

Definition with_presets (d : Dialog) (p : list pyval) : Dialog :=
  {| _sliders := _sliders d; presets_editor := p;
     _main_vbox := _main_vbox d; has_layout := has_layout d;
     accepted_connected := accepted_connected d;
     rejected_connected := rejected_connected d;
     ok_focused := ok_focused d; kind := kind d; result := result d |}.

Definition with_main_vbox (d : Dialog) (v : list Widget) : Dialog :=
  {| _sliders := _sliders d; presets_editor := presets_editor d;
     _main_vbox := v; has_layout := has_layout d;
     accepted_connected := accepted_connected d;
     rejected_connected := rejected_connected d;
     ok_focused := ok_focused d; kind := kind d; result := result d |}.

Definition with_layout (d : Dialog) : Dialog :=
  {| _sliders := _sliders d; presets_editor := presets_editor d;
     _main_vbox := _main_vbox d; has_layout := true;
     accepted_connected := accepted_connected d;
     rejected_connected := rejected_connected d;
     ok_focused := ok_focused d; kind := kind d; result := result d |}.

Definition with_logic (d : Dialog) : Dialog :=
  {| _sliders := _sliders d; presets_editor := presets_editor d;
     _main_vbox := _main_vbox d; has_layout := has_layout d;
     accepted_connected := true; rejected_connected := true;
     ok_focused := true; kind := kind d; result := result d |}.

Definition with_kind (d : Dialog) (k : Kind) : Dialog :=
  {| _sliders := _sliders d; presets_editor := presets_editor d;
     _main_vbox := _main_vbox d; has_layout := has_layout d;
     accepted_connected := accepted_connected d;
     rejected_connected := rejected_connected d;
     ok_focused := ok_focused d; kind := k; result := result d |}.

Definition with_result (d : Dialog) (r : DialogResult) : Dialog :=
  {| _sliders := _sliders d; presets_editor := presets_editor d;
     _main_vbox := _main_vbox d; has_layout := has_layout d;
     accepted_connected := accepted_connected d;
     rejected_connected := rejected_connected d;
     ok_focused := ok_focused d; kind := kind d; result := r |}.

(** [SettingsDialog.__init__] followed by the subclass's own: nothing laid
    out, nothing connected, the sliders at their minimum. *)
Definition construct (max_image_width max_image_height : Z) (k : Kind) : Dialog :=
  {| _sliders := ImageSliderBox.init max_image_width max_image_height;
     presets_editor := []; _main_vbox := []; has_layout := false;
     accepted_connected := false; rejected_connected := false;
     ok_focused := false; kind := k; result := Running |}.

(** ** The world the methods run in *)

Inductive Phase : Type :=
| BuildLayout
| PopulateLayout
| WireInteractions
| LoadInitialValues.

(** What an observer outside the dialog sees, oldest first.  [Enter] and
    [Leave] mark the four calls of [setup_ui], [Interactive] the start of
    [QDialog.exec], [Commit] a call of [accept]. *)
Inductive Effect : Type :=
| Enter (p : Phase)
| Leave (p : Phase)
| Interactive
| Commit
| Cancel
| ShowInfo (title text : string)
| WriteConfig (saved : gmap string pyval)
| Unhandled (e : exn).

Record World : Type := {
  dialog : Dialog;
  config : gmap string pyval;
  effects : list Effect;
}.

Definition Method : Type := World -> Outcome World.

Definition seq (m1 m2 : Method) : Method := fun w => and_then (m1 w) m2.
Notation "m1 >>> m2" := (seq m1 m2) (at level 65, right associativity).

Definition on_dialog (f : Dialog -> Dialog) : Method := fun w =>
  Done {| dialog := f (dialog w); config := config w; effects := effects w |}.

Definition on_config (f : World -> gmap string pyval) : Method := fun w =>
  Done {| dialog := dialog w; config := f w; effects := effects w |}.

Definition emit (e : World -> Effect) : Method := fun w =>
  Done {| dialog := dialog w; config := config w;
          effects := effects w ++ [e w] |}.

Definition raise (e : exn) : Method := fun w => Raised e w.

Definition skip : Method := fun w => Done w.

Definition set_dialog (w : World) (d : Dialog) : World :=
  {| dialog := d; config := config w; effects := effects w |}.

(** The user's actions on an open dialog. *)
Inductive Slider : Type := Width | Height | Quality.

Inductive Event : Type :=
| SliderMoved (which : Slider) (v : Z)
| ScaleButtonClicked (index : nat)
| FieldSelectorToggled (b : bool)
| FieldTicked (name : string) (b : bool)
| ReconvertToggled (b : bool)
| CheckboxToggled (key : string) (b : bool)
| ShowDialogChosen (i : Z)
| FilenamePatternChosen (i : Z)
| OkClicked
| CancelClicked.

Definition is_ok_click (ev : Event) : bool :=
  match ev with OkClicked => true | _ => false end.

Section Methods.

(** [ShowOptions.index_of] of [utils], which these sources do not include. *)
Variable ShowOptions_index_of : pyval -> Z.

(** *** The four phases *)

(** [self.setLayout(self.create_main_layout())] *)
Definition create_main_layout : Method := on_dialog with_layout.

Definition addWidget (x : Widget) : Method :=
  on_dialog (fun d => with_main_vbox d (_main_vbox d ++ [x])).

Definition SettingsDialog_populate_main_vbox : Method :=
  addWidget W_sliders >>> addWidget W_presets_editor.

Definition populate_main_vbox : Method := fun w =>
  match kind (dialog w) with
  | BulkConvertDialog _ _ _ =>
      (SettingsDialog_populate_main_vbox >>> addWidget W_field_selector
         >>> addWidget W_reconvert_checkbox) w
  | PasteDialog _ =>
      (SettingsDialog_populate_main_vbox >>> addWidget W_scale_settings) w
  | SettingsMenuDialog _ _ _ =>
      (SettingsDialog_populate_main_vbox
         >>> addWidget W_additional_settings) w
  end.

Definition setup_logic : Method := on_dialog with_logic.

(** [self._sliders.populate(config)] *)
Definition populate_sliders : Method := fun w =>
  match ImageSliderBox.populate (config w) (_sliders (dialog w)) with
  | Done s => Done (set_dialog w (with_sliders (dialog w) s))
  | Raised e s => Raised e (set_dialog w (with_sliders (dialog w) s))
  end.

(** Modelled from the spec: [widgets/presets_editor.py] is missing.  The
    spec's [addItems(records)] loads a list of records in its order; here a
    stored value that is not a list is a [TypeError]. *)
Definition add_items : Method := fun w =>
  match config w !! "saved_presets" with
  | None => Done w
  | Some (PyList l) =>
      Done (set_dialog w
              (with_presets (dialog w) (presets_editor (dialog w) ++ l)))
  | Some _ => Raised TypeError w
  end.

Definition SettingsDialog_set_initial_values : Method :=
  populate_sliders >>> add_items.

(** [widget.setChecked(config[key])] for each checkbox in turn; what was
    set before a raise stays set. *)
Fixpoint load_checkboxes (cfg : gmap string pyval)
    (cbs : list (string * bool)) : list (string * bool) * option exn :=
  match cbs with
  | [] => ([], None)
  | (key, b) :: rest =>
      match cfg !! key with
      | None => ((key, b) :: rest, Some (KeyError key))
      | Some x =>
          match as_bool (Some x) with
          | Some v =>
              let '(rest', e) := load_checkboxes cfg rest in
              ((key, v) :: rest', e)
          | None => ((key, b) :: rest, Some TypeError)
          end
      end
  end.

Definition set_kind (w : World) (k : Kind) : World :=
  set_dialog w (with_kind (dialog w) k).

Definition set_initial_values : Method := fun w =>
  match kind (dialog w) with
  | BulkConvertDialog fs rc notes =>
      let fs1 := FieldSelector.add_fields fs (get_all_keys notes) in
      let fs2 :=
        FieldSelector.set_fields fs1 (config w !! "bulk_convert_fields") in
      match as_bool (config w !! "bulk_reconvert_webp") with
      | Some b =>
          SettingsDialog_set_initial_values
            (set_kind w (BulkConvertDialog fs2 b notes))
      | None => Raised TypeError (set_kind w (BulkConvertDialog fs2 rc notes))
      end
  | PasteDialog _ => SettingsDialog_set_initial_values w
  | SettingsMenuDialog _ _ _ =>
      (SettingsDialog_set_initial_values >>> fun w =>
         match kind (dialog w) with
         | SettingsMenuDialog show pattern cbs =>
             let show1 :=
               ComboBox.setCurrentIndex show
                 (ShowOptions_index_of
                    (default PyNone (config w !! "show_settings"))) in
             match as_int (Some (default (PyInt 0)
                                    (config w !! "filename_pattern_num"))) with
             | Some i =>
                 if in_c_int i then
                   let pattern1 := ComboBox.setCurrentIndex pattern i in
                   let '(cbs1, e) := load_checkboxes (config w) cbs in
                   let w1 :=
                     set_kind w (SettingsMenuDialog show1 pattern1 cbs1) in
                   match e with
                   | None => Done w1
                   | Some e => Raised e w1
                   end
                 else Raised OverflowError
                        (set_kind w (SettingsMenuDialog show1 pattern cbs))
             | None => Raised TypeError
                         (set_kind w (SettingsMenuDialog show1 pattern cbs))
             end
         | _ => Done w
         end) w
  end.

Definition setup_ui : Method :=
  emit (fun _ => Enter BuildLayout) >>> create_main_layout
    >>> emit (fun _ => Leave BuildLayout)
    >>> emit (fun _ => Enter PopulateLayout) >>> populate_main_vbox
    >>> emit (fun _ => Leave PopulateLayout)
    >>> emit (fun _ => Enter WireInteractions) >>> setup_logic
    >>> emit (fun _ => Leave WireInteractions)
    >>> emit (fun _ => Enter LoadInitialValues) >>> set_initial_values
    >>> emit (fun _ => Leave LoadInitialValues).

(** *** accept and reject *)

(** Modelled from the spec: [config.py] is missing, and with it
    [write_config]; the spec's store has [save(map)], which here receives the
    configuration map as it is at the call. *)
Definition write_config : Method := emit (fun w => WriteConfig (config w)).

Definition QDialog_accept : Method := on_dialog (fun d => with_result d Accepted).
Definition QDialog_reject : Method := on_dialog (fun d => with_result d Rejected).

Definition SettingsDialog_accept : Method :=
  on_config (fun w => ImageSliderBox.as_dict (_sliders (dialog w)) ∪ config w)
    >>> on_config (fun w =>
          <["saved_presets" := PyList (presets_editor (dialog w))]> (config w))
    >>> write_config
    >>> QDialog_accept.

Definition store_checkboxes (cbs : list (string * bool))
    (cfg : gmap string pyval) : gmap string pyval :=
  fold_left (fun c kb => <[kb.1 := PyBool kb.2]> c) cbs cfg.

Definition is_empty {A} (l : list A) : bool :=
  match l with [] => true | _ => false end.

Definition accept_body : Method := fun w =>
  match kind (dialog w) with
  | BulkConvertDialog fs rc _ =>
      if FieldSelector.isChecked fs
         && is_empty (FieldSelector.selected_fields fs)
      then emit (fun _ => ShowInfo "Can't accept settings"
                            "No fields selected. Nothing to convert.") w
      else
        (on_config (fun w =>
           <["bulk_convert_fields" :=
               PyList (PyStr <$> FieldSelector.selected_fields fs)]> (config w))
         >>> on_config (fun w => <["bulk_reconvert_webp" := PyBool rc]> (config w))
         >>> SettingsDialog_accept) w
  | PasteDialog _ => SettingsDialog_accept w
  | SettingsMenuDialog show pattern cbs =>
      (on_config (fun w =>
         <["show_settings" := ComboBox.currentData show]> (config w))
       >>> on_config (fun w =>
         <["filename_pattern_num" := PyInt (ComboBox.currentIndex pattern)]>
           (config w))
       >>> on_config (fun w => store_checkboxes cbs (config w))
       >>> SettingsDialog_accept) w
  end.

Definition accept : Method := emit (fun _ => Commit) >>> accept_body.

Definition reject : Method := emit (fun _ => Cancel) >>> QDialog_reject.

(** *** The event loop of [QDialog.exec] *)

Definition move_slider (which : Slider) (v : Z) (s : ImageSliderBox.t)
    : ImageSliderBox.t :=
  match which with
  | Width => ImageSliderBox.set_width s v
  | Height => ImageSliderBox.set_height s v
  | Quality => ImageSliderBox.set_quality s v
  end.

Definition toggle_checkbox (key : string) (b : bool)
    (cbs : list (string * bool)) : list (string * bool) :=
  (fun kb => if decide (kb.1 = key) then (kb.1, b) else kb) <$> cbs.

(** The slot an event reaches, if the widget exists in this dialog. *)
Definition handle (ev : Event) : Method := fun w =>
  let d := dialog w in
  match ev, kind d with
  | SliderMoved which v, _ =>
      Done (set_dialog w (with_sliders d (move_slider which v (_sliders d))))
  | ScaleButtonClicked index, PasteDialog image =>
      match factors !! index with
      | Some f =>
          match adjust_sliders image (_sliders d) f with
          | Done s => Done (set_dialog w (with_sliders d s))
          | Raised e s => Raised e (set_dialog w (with_sliders d s))
          end
      | None => Done w
      end
  | FieldSelectorToggled b, BulkConvertDialog fs rc notes =>
      Done (set_kind w (BulkConvertDialog (FieldSelector.set_checked fs b) rc notes))
  | FieldTicked name b, BulkConvertDialog fs rc notes =>
      Done (set_kind w (BulkConvertDialog (FieldSelector.tick fs name b) rc notes))
  | ReconvertToggled b, BulkConvertDialog fs _ notes =>
      Done (set_kind w (BulkConvertDialog fs b notes))
  | CheckboxToggled key b, SettingsMenuDialog show pattern cbs =>
      Done (set_kind w (SettingsMenuDialog show pattern (toggle_checkbox key b cbs)))
  | ShowDialogChosen i, SettingsMenuDialog show pattern cbs =>
      Done (set_kind w
              (SettingsMenuDialog (ComboBox.setCurrentIndex show i) pattern cbs))
  | FilenamePatternChosen i, SettingsMenuDialog show pattern cbs =>
      Done (set_kind w
              (SettingsMenuDialog show (ComboBox.setCurrentIndex pattern i) cbs))
  | OkClicked, _ => if accepted_connected d then accept w else Done w
  | CancelClicked, _ => if rejected_connected d then reject w else Done w
  | _, _ => Done w
  end.

(** An exception that leaves a slot is reported and the loop goes on. *)
Definition dispatch (ev : Event) (w : World) : World :=
  match handle ev w with
  | Done w' => w'
  | Raised e w' =>
      {| dialog := dialog w'; config := config w';
         effects := effects w' ++ [Unhandled e] |}
  end.

Fixpoint event_loop (evs : list Event) (w : World) : World :=
  match result (dialog w) with
  | Running =>
      match evs with
      | [] => w
      | ev :: rest => event_loop rest (dispatch ev w)
      end
  | _ => w
  end.

(** [QDialog.exec]: the dialog is shown and events are served until it is
    accepted or rejected. *)
Definition QDialog_exec (evs : list Event) : Method :=
  on_dialog (fun d => with_result d Running)
    >>> emit (fun _ => Interactive)
    >>> fun w => Done (event_loop evs w).

Definition exec (evs : list Event) : Method :=
  setup_ui >>> QDialog_exec evs.

End Methods.

(** ** What the claims are measured against *)

(** The exact product of [w] and a finite factor, truncated toward zero. *)
Definition truncated_product (w : Z) (factor : Factor) : Z :=
  match factor with
  | IntFactor n => w * n
  | FloatFactor e => Z.quot (w * e) 8
  end.

(** A scale press as the specification words it: a dimension that is not zero
    becomes [round(original * f)]. *)
Definition press_rounds (image : ImageDimensions) (sl : ImageSliderBox.t)
    (factor : Factor) : Prop :=
  let sl' := state_of (adjust_sliders image sl factor) in
  (ImageSliderBox.width sl <> 0 ->
   Some (ImageSliderBox.width sl') = spec_scaled (width image) factor)
  /\ (ImageSliderBox.height sl <> 0 ->
      Some (ImageSliderBox.height sl') = spec_scaled (height image) factor).

(** A panel with the given width, height and quality and the given limits of
    the two sides. *)
Definition panel (w h q max_width max_height : Z) : ImageSliderBox.t :=
  {| ImageSliderBox.image_width := RichSlider.Build w max_width;
     ImageSliderBox.image_height := RichSlider.Build h max_height;
     ImageSliderBox.image_quality := RichSlider.Build q 100 |}.

(** The maps handed to the store, oldest first. *)
Definition writes (tr : list Effect) : list (gmap string pyval) :=
  omap (fun e => match e with WriteConfig c => Some c | _ => None end) tr.

(** The one case in which [accept] does not go through: a bulk-convert dialog
    whose field selector is checked with no field selected. *)
Definition commit_blocked (d : Dialog) : bool :=
  match kind d with
  | BulkConvertDialog fs _ _ =>
      FieldSelector.isChecked fs && is_empty (FieldSelector.selected_fields fs)
  | _ => false
  end.

(** A commit as the specification words it: the store is not written to. *)
Definition commit_leaves_store_alone (w : World) : Prop :=
  writes (effects (state_of (accept w))) = writes (effects w).

(** The marks of a [setup_ui] that ran to its end, and of one whose last
    phase raised. *)
Definition setup_marks : list Effect :=
  [Enter BuildLayout; Leave BuildLayout;
   Enter PopulateLayout; Leave PopulateLayout;
   Enter WireInteractions; Leave WireInteractions;
   Enter LoadInitialValues; Leave LoadInitialValues].

Definition setup_marks_load_raised : list Effect :=
  [Enter BuildLayout; Leave BuildLayout;
   Enter PopulateLayout; Leave PopulateLayout;
   Enter WireInteractions; Leave WireInteractions;
   Enter LoadInitialValues].

(** What the event loop may emit: anything but the marks of the set-up. *)
Definition after_setup (e : Effect) : Prop :=
  match e with
  | Enter _ | Leave _ | Interactive => False
  | _ => True
  end.

(** A sample configuration and a sample paste dialog over it. *)
Definition sample_config : gmap string pyval :=
  <["image_width" := PyInt 0]>
    (<["image_height" := PyInt 200]> (<["image_quality" := PyInt 20]> ∅)).

Definition sample_world (k : Kind) : World :=
  {| dialog := construct 800 600 k; config := sample_config; effects := [] |}.

(** The message of the bulk-convert dialog. *)
Definition no_fields_message : Effect :=
  ShowInfo "Can't accept settings" "No fields selected. Nothing to convert.".

(** The keys [accept] assigns to when it goes through, by dialog. *)
Definition base_keys : list string :=
  ["image_width"; "image_height"; "image_quality"; "saved_presets"].

Definition written_keys (d : Dialog) : list string :=
  base_keys
  ++ match kind d with
     | BulkConvertDialog _ _ _ => ["bulk_convert_fields"; "bulk_reconvert_webp"]
     | PasteDialog _ => []
     | SettingsMenuDialog _ _ cbs =>
         "show_settings" :: "filename_pattern_num" :: cbs.*1
     end.

(** ** PasteDialog.create_scale_options_grid *)

(** [int(a / b)] for ints [a] and [b].  The true division of two ints is the
    double nearest to the exact quotient, ties to even: the quotient of the
    magnitudes is taken with at least two bits more than a double holds, the
    last one standing for all that follow, and rounded to 53 bits; the double
    is [r / 2 ^ (t + 1)].  [None] is the exception the division raises:
    [ZeroDivisionError] for [b = 0], [OverflowError] for a quotient that is
    too large for a float.  [int] cuts off toward zero. *)
Definition int_truediv (a b : Z) : option Z :=
  if b =? 0 then None
  else if a =? 0 then Some 0
  else
    let a' := Z.abs a in
    let b' := Z.abs b in
    let t := Z.max 0 (55 + Z.log2 b' - Z.log2 a') in
    let x := Z.shiftl a' t in
    let y := 2 * (x / b') + (if x mod b' =? 0 then 0 else 1) in
    let r := round53 y in
    if 2 ^ 1024 * 2 ^ (t + 1) <=? r then None
    else Some (Z.sgn a * Z.sgn b * (r / 2 ^ (t + 1))).

(** The cell of the button with this index: [i = int(index / columns)],
    [j = index - (i * columns)]. *)
Definition grid_cell (index columns : Z) : option (Z * Z) :=
  match int_truediv index columns with
  | Some i => Some (i, index - i * columns)
  | None => None
  end.

(** The loop over [enumerate(factors)], from [index] on: each button with
    its row, its column and the factor its click passes to
    [adjust_sliders], in the order of [addWidget].  The label of the button
    is left out. *)
Fixpoint place_buttons (columns index : Z) (fs : list Factor)
    : option (list (Z * Z * Factor)) :=
  match fs with
  | [] => Some []
  | f :: rest =>
      match grid_cell index columns with
      | Some (i, j) =>
          match place_buttons columns (index + 1) rest with
          | Some placed => Some ((i, j, f) :: placed)
          | None => None
          end
      | None => None
      end
  end.

Definition create_scale_options_grid : option (list (Z * Z * Factor)) :=
  place_buttons 3 0 factors.

(** The widgets a subclass adds under those of [SettingsDialog]. *)
Definition own_widgets (k : Kind) : list Widget :=
  match k with
  | BulkConvertDialog _ _ _ => [W_field_selector; W_reconvert_checkbox]
  | PasteDialog _ => [W_scale_settings]
  | SettingsMenuDialog _ _ _ => [W_additional_settings]
  end.

(** What of a dialog the loading of values has no business with. *)
Definition chrome (d : Dialog)
    : list Widget * bool * bool * bool * bool * DialogResult :=
  (_main_vbox d, has_layout d, accepted_connected d, rejected_connected d,
   ok_focused d, result d).


(** * Proofs *)

(** ** Numbers *)

Lemma round53_small (k : Z) : Z.abs k < 2 ^ 53 -> round53 k = k.
Proof.
  intros Hk. unfold round53.
  destruct (Z.ltb_spec (Z.abs k) (2 ^ 53)) as [_|Hge]; [reflexivity | lia].
Qed.

Lemma float_overflows_small (e : Z) :
  Z.abs e < 2 ^ 60 -> float_overflows e = false.
Proof.
  intros He. unfold float_overflows.
  apply Z.leb_gt.
  assert (H : 2 ^ 60 <= 2 ^ 1024) by (apply Z.pow_le_mono_r; lia).
  lia.
Qed.

Lemma float_of_int_small (w : Z) : Z.abs w < 2 ^ 49 -> float_of_int w = Some w.
Proof.
  intros Hw. unfold float_of_int.
  assert (H49 : 2 ^ 49 < 2 ^ 53) by (apply Z.pow_lt_mono_r; lia).
  assert (H57 : 8 * 2 ^ 49 < 2 ^ 60) by (change 8 with (2 ^ 3);
    rewrite <- Z.pow_add_r by lia; apply Z.pow_lt_mono_r; lia).
  rewrite round53_small by lia.
  rewrite float_overflows_small; [reflexivity | lia].
Qed.

Lemma float_mul_small (x e : Z) :
  Z.abs x < 2 ^ 49 -> 0 <= e <= 12 -> float_mul x e = Fin8 (x * e).
Proof.
  intros Hx He. unfold float_mul.
  assert (H53 : 16 * 2 ^ 49 = 2 ^ 53) by
    (change 16 with (2 ^ 4); rewrite <- Z.pow_add_r by lia; reflexivity).
  assert (H60 : 2 ^ 53 < 2 ^ 60) by (apply Z.pow_lt_mono_r; lia).
  assert (Hp : Z.abs (x * e) < 2 ^ 53) by (rewrite Z.abs_mul; nia).
  rewrite round53_small by exact Hp.
  rewrite float_overflows_small; [reflexivity | lia].
Qed.

(** For every image side a picture can have, [int(side * f)] is the exact
    product cut off at the decimal point, whichever of the six factors. *)
Lemma scaled_exact (w : Z) (f : Factor) :
  In f factors -> Z.abs w < 2 ^ 49 -> scaled w f = Some (truncated_product w f).
Proof.
  intros Hf Hw. unfold scaled, py_mul.
  simpl in Hf.
  destruct Hf as [<-|[<-|[<-|[<-|[<-|[<-|[]]]]]]]; cbn [py_int truncated_product];
    try reflexivity;
    rewrite float_of_int_small by exact Hw;
    rewrite float_mul_small by (first [exact Hw | lia]); reflexivity.
Qed.

(** ** The slider panel *)

Lemma clamp_valid (v limit : Z) :
  0 <= v <= limit -> RichSlider.clamp v 0 limit = v.
Proof. unfold RichSlider.clamp. lia. Qed.

Lemma clamp_nonneg (v limit : Z) : 0 <= RichSlider.clamp v 0 limit.
Proof. unfold RichSlider.clamp. lia. Qed.

Lemma set_value_valid (s : RichSlider.t) :
  RichSlider.valid s -> RichSlider.set_value s (RichSlider.value s) = s.
Proof.
  intros Hs. destruct s as [v l]. unfold RichSlider.valid in Hs.
  unfold RichSlider.set_value. cbn in *. by rewrite clamp_valid.
Qed.

Lemma set_value_twice (s : RichSlider.t) (v1 v2 : Z) :
  RichSlider.set_value (RichSlider.set_value s v1) v2 = RichSlider.set_value s v2.
Proof. reflexivity. Qed.

Lemma width_set_width (sl : ImageSliderBox.t) (v : Z) :
  ImageSliderBox.width (ImageSliderBox.set_width sl v)
  = RichSlider.clamp v 0 (RichSlider.limit (ImageSliderBox.image_width sl)).
Proof. reflexivity. Qed.

Lemma height_set_height (sl : ImageSliderBox.t) (v : Z) :
  ImageSliderBox.height (ImageSliderBox.set_height sl v)
  = RichSlider.clamp v 0 (RichSlider.limit (ImageSliderBox.image_height sl)).
Proof. reflexivity. Qed.

(** ** adjust_sliders *)

(** The height step never touches the width slider, nor the width step the
    height slider. *)
Lemma adjust_height_width image f sl :
  ImageSliderBox.image_width (state_of (adjust_height image f sl))
  = ImageSliderBox.image_width sl.
Proof.
  unfold adjust_height.
  destruct (0 <? ImageSliderBox.height sl); [|reflexivity].
  destruct (scaled (height image) f); reflexivity.
Qed.

Lemma adjust_width_height image f sl :
  ImageSliderBox.image_height (state_of (adjust_width image f sl))
  = ImageSliderBox.image_height sl.
Proof.
  unfold adjust_width.
  destruct (0 <? ImageSliderBox.width sl); [|reflexivity].
  destruct (scaled (width image) f); reflexivity.
Qed.

Lemma state_of_and_then {S} (o : Outcome S) (k : S -> Outcome S) :
  state_of (and_then o k)
  = match o with Done s => state_of (k s) | Raised _ s => s end.
Proof. destruct o; reflexivity. Qed.

(** The width after a press, case by case. *)
Lemma adjust_sliders_width image sl f :
  ImageSliderBox.width (state_of (adjust_sliders image sl f))
  = if 0 <? ImageSliderBox.width sl then
      match scaled (width image) f with
      | Some v => RichSlider.clamp v 0
                    (RichSlider.limit (ImageSliderBox.image_width sl))
      | None => ImageSliderBox.width sl
      end
    else ImageSliderBox.width sl.
Proof.
  unfold adjust_sliders. rewrite state_of_and_then.
  unfold adjust_width.
  destruct (0 <? ImageSliderBox.width sl).
  - destruct (scaled (width image) f) as [v|]; [|reflexivity].
    unfold ImageSliderBox.width at 1. by rewrite adjust_height_width.
  - unfold ImageSliderBox.width at 1. by rewrite adjust_height_width.
Qed.

(** The height after a press that did not raise on the width. *)
Lemma adjust_sliders_height image sl f :
  raised (adjust_width image f sl) = None ->
  ImageSliderBox.height (state_of (adjust_sliders image sl f))
  = if 0 <? ImageSliderBox.height sl then
      match scaled (height image) f with
      | Some v => RichSlider.clamp v 0
                    (RichSlider.limit (ImageSliderBox.image_height sl))
      | None => ImageSliderBox.height sl
      end
    else ImageSliderBox.height sl.
Proof.
  intros Hw. unfold adjust_sliders. rewrite state_of_and_then.
  generalize (adjust_width_height image f sl).
  destruct (adjust_width image f sl) as [s1|e s1]; [|discriminate].
  cbn [state_of]. intros Hh. unfold adjust_height, ImageSliderBox.height.
  rewrite Hh.
  destruct (0 <? _); [destruct (scaled (height image) f)|];
    cbn; rewrite ?Hh; reflexivity.
Qed.

Lemma adjust_sliders_width_zero image sl f :
  ImageSliderBox.width sl = 0 ->
  ImageSliderBox.width (state_of (adjust_sliders image sl f)) = 0.
Proof. intros H0. rewrite adjust_sliders_width, H0. reflexivity. Qed.

Lemma adjust_sliders_height_zero image sl f :
  ImageSliderBox.height sl = 0 ->
  ImageSliderBox.height (state_of (adjust_sliders image sl f)) = 0.
Proof.
  intros H0. unfold adjust_sliders. rewrite state_of_and_then.
  generalize (adjust_width_height image f sl).
  destruct (adjust_width image f sl) as [s1|e s1]; cbn [state_of]; intros Hh.
  - unfold adjust_height, ImageSliderBox.height in *.
    rewrite Hh, H0. cbn. by rewrite Hh.
  - unfold ImageSliderBox.height in *. by rewrite Hh.
Qed.

Lemma adjust_sliders_completes image sl f v1 v2 :
  scaled (width image) f = Some v1 -> scaled (height image) f = Some v2 ->
  raised (adjust_sliders image sl f) = None.
Proof.
  intros H1 H2. unfold adjust_sliders, adjust_width, adjust_height.
  rewrite H1. destruct (0 <? ImageSliderBox.width sl); cbn [and_then];
    rewrite H2; by destruct (0 <? _).
Qed.

Lemma press_all_width_zero image fs : forall sl,
  ImageSliderBox.width sl = 0 ->
  ImageSliderBox.width (press_all image sl fs) = 0.
Proof.
  induction fs as [|f fs IH]; intros sl H0; [exact H0|].
  cbn [press_all fold_left]. apply IH. by apply adjust_sliders_width_zero.
Qed.

Ltac case_press :=
  repeat match goal with
  | |- context [0 <? ?x] => destruct (0 <? x) eqn:?; cbn in *
  | |- context [scaled ?w ?f] => destruct (scaled w f) eqn:?; cbn in *
  end.

(** ** The claims about the scale buttons *)

(** C1 as stated: a press rounds.  It does not: with a 30 x 20 original and
    both dimensions set, the 1/8 button gives width 3, and [round(3.75)] is 4. *)
Lemma press_does_not_round :
  ~ press_rounds {| width := 30; height := 20 |} (panel 30 20 20 800 600)
      (FloatFactor 1).
Proof.
  intros [Hw _]. specialize (Hw ltac:(discriminate)).
  vm_compute in Hw. discriminate.
Qed.

(** C1, amended: for every factor of the grid, every valid panel and every
    original size below 2^49 a press completes, and a dimension that is not
    zero becomes [int(original * f)], the exact product truncated toward zero,
    as far as the slider's limit allows; with an 800 x 600 original, both
    dimensions set and limits of at least 1600 and 1200, the 1/2 button gives
    400 x 300 and the 2 button 1600 x 1200. *)
Theorem adjust_sliders_truncates :
  (forall image sl f,
      In f factors -> ImageSliderBox.valid sl ->
      Z.abs (width image) < 2 ^ 49 -> Z.abs (height image) < 2 ^ 49 ->
      let sl' := state_of (adjust_sliders image sl f) in
      raised (adjust_sliders image sl f) = None
      /\ (ImageSliderBox.width sl <> 0 ->
          ImageSliderBox.width sl'
          = RichSlider.clamp (truncated_product (width image) f) 0
              (RichSlider.limit (ImageSliderBox.image_width sl)))
      /\ (ImageSliderBox.height sl <> 0 ->
          ImageSliderBox.height sl'
          = RichSlider.clamp (truncated_product (height image) f) 0
              (RichSlider.limit (ImageSliderBox.image_height sl))))
  /\ (forall q max_width max_height,
         1600 <= max_width -> 1200 <= max_height ->
         let image := {| width := 800; height := 600 |} in
         let sl := panel 800 600 q max_width max_height in
         adjust_sliders image sl (FloatFactor 4)
         = Done (panel 400 300 q max_width max_height)
         /\ adjust_sliders image sl (IntFactor 2)
            = Done (panel 1600 1200 q max_width max_height)).
Proof.
  split.
  - intros image sl f Hf (Hvw & Hvh & _) Hw Hh sl'.
    pose proof (scaled_exact _ _ Hf Hw) as Ew.
    pose proof (scaled_exact _ _ Hf Hh) as Eh.
    pose proof (adjust_sliders_completes image sl f _ _ Ew Eh) as Hdone.
    split; [exact Hdone|]. unfold RichSlider.valid in *. split; intros Hnz.
    + subst sl'. rewrite adjust_sliders_width, Ew.
      unfold ImageSliderBox.width in *.
      destruct (Z.ltb_spec 0 (RichSlider.value (ImageSliderBox.image_width sl)));
        [reflexivity | lia].
    + subst sl'. rewrite adjust_sliders_height.
      * rewrite Eh. unfold ImageSliderBox.height in *.
        destruct (Z.ltb_spec 0 (RichSlider.value (ImageSliderBox.image_height sl)));
          [reflexivity | lia].
      * unfold adjust_width. rewrite Ew. by destruct (0 <? _).
  - intros q mw mh Hmw Hmh image sl.
    assert (E1 : scaled 800 (FloatFactor 4) = Some 400) by (by vm_compute).
    assert (E2 : scaled 600 (FloatFactor 4) = Some 300) by (by vm_compute).
    subst image sl. unfold adjust_sliders, adjust_width, adjust_height, panel.
    cbn [width height ImageSliderBox.width ImageSliderBox.height
         ImageSliderBox.image_width ImageSliderBox.image_height
         RichSlider.value Z.ltb Z.compare].
    rewrite E1. cbn [and_then ImageSliderBox.set_width ImageSliderBox.height
      ImageSliderBox.image_height RichSlider.value Z.ltb Z.compare].
    rewrite E2. cbn [scaled py_mul py_int and_then state_of].
    unfold ImageSliderBox.set_width, ImageSliderBox.set_height,
      RichSlider.set_value, RichSlider.clamp.
    cbn [ImageSliderBox.image_width ImageSliderBox.image_height
         ImageSliderBox.image_quality RichSlider.limit RichSlider.value].
    change (800 * 2) with 1600. change (600 * 2) with 1200.
    rewrite !Z.min_l, !Z.max_r by lia. by split.
Qed.

(** A press on an 800 x 600 original with both dimensions set, limits 2000:
    the hypotheses of C1's theorem hold there. *)
Lemma adjust_sliders_truncates_witness :
  let image := {| width := 800; height := 600 |} in
  let sl := panel 800 600 20 2000 2000 in
  raised (adjust_sliders image sl (FloatFactor 4)) = None
  /\ (ImageSliderBox.width sl <> 0 ->
      ImageSliderBox.width (state_of (adjust_sliders image sl (FloatFactor 4)))
      = RichSlider.clamp 400 0 2000)
  /\ (ImageSliderBox.height sl <> 0 ->
      ImageSliderBox.height (state_of (adjust_sliders image sl (FloatFactor 4)))
      = RichSlider.clamp 300 0 2000).
Proof.
  apply (proj1 adjust_sliders_truncates
           {| width := 800; height := 600 |} (panel 800 600 20 2000 2000)
           (FloatFactor 4)).
  - simpl. tauto.
  - unfold ImageSliderBox.valid, RichSlider.valid, panel. simpl. lia.
  - simpl. lia.
  - simpl. lia.
Defined.

(** C3: whatever the factor and the original size, a press leaves a width of
    zero at zero and a height of zero at zero, and with both at zero it
    changes nothing on the panel and raises nothing. *)
Theorem adjust_sliders_keeps_zero image sl f :
  let sl' := state_of (adjust_sliders image sl f) in
  (ImageSliderBox.width sl = 0 -> ImageSliderBox.width sl' = 0)
  /\ (ImageSliderBox.height sl = 0 -> ImageSliderBox.height sl' = 0)
  /\ (ImageSliderBox.width sl = 0 -> ImageSliderBox.height sl = 0 ->
      adjust_sliders image sl f = Done sl).
Proof.
  cbv zeta. split; [|split].
  - apply adjust_sliders_width_zero.
  - apply adjust_sliders_height_zero.
  - intros Hw Hh. unfold adjust_sliders, adjust_width, adjust_height.
    rewrite Hw. cbn. by rewrite Hh.
Qed.

(** A panel on automatic width and height under the 1.5 button. *)
Lemma adjust_sliders_keeps_zero_witness :
  let image := {| width := 800; height := 600 |} in
  let sl := panel 0 0 20 800 600 in
  ImageSliderBox.width sl = 0 /\ ImageSliderBox.height sl = 0
  /\ ImageSliderBox.width (state_of (adjust_sliders image sl (FloatFactor 12))) = 0
  /\ ImageSliderBox.height (state_of (adjust_sliders image sl (FloatFactor 12))) = 0
  /\ adjust_sliders image sl (FloatFactor 12) = Done sl.
Proof.
  pose proof (adjust_sliders_keeps_zero {| width := 800; height := 600 |}
                (panel 0 0 20 800 600) (FloatFactor 12)) as (Hw & Hh & Hb).
  split; [reflexivity|]. split; [reflexivity|]. split; [|split].
  - apply Hw. reflexivity.
  - apply Hh. reflexivity.
  - apply Hb; reflexivity.
Defined.

(** C9: a press computes from the original size, not from the panel: the same
    button pressed twice leaves the panel as one press does, and two states of
    one panel with a dimension set in both get the same value for it from a
    press that completes on both. *)
Theorem adjust_sliders_does_not_compound image f :
  (forall sl,
      state_of (adjust_sliders image (state_of (adjust_sliders image sl f)) f)
      = state_of (adjust_sliders image sl f))
  /\ (forall sl1 sl2,
         ImageSliderBox.same_limits sl1 sl2 ->
         raised (adjust_sliders image sl1 f) = None ->
         raised (adjust_sliders image sl2 f) = None ->
         (0 < ImageSliderBox.width sl1 -> 0 < ImageSliderBox.width sl2 ->
          ImageSliderBox.width (state_of (adjust_sliders image sl1 f))
          = ImageSliderBox.width (state_of (adjust_sliders image sl2 f)))
         /\ (0 < ImageSliderBox.height sl1 -> 0 < ImageSliderBox.height sl2 ->
             ImageSliderBox.height (state_of (adjust_sliders image sl1 f))
             = ImageSliderBox.height (state_of (adjust_sliders image sl2 f)))).
Proof.
  split.
  - intros [[wv wl] [hv hl] [qv ql]].
    unfold adjust_sliders, adjust_width, adjust_height,
      ImageSliderBox.width, ImageSliderBox.height.
    cbn. case_press; reflexivity || congruence.
  - intros sl1 sl2 (Lw & Lh & _) R1 R2.
    assert (W : forall sl, raised (adjust_sliders image sl f) = None ->
                raised (adjust_width image f sl) = None).
    { intros sl. unfold adjust_sliders.
      by destruct (adjust_width image f sl). }
    split; intros P1 P2.
    + rewrite !adjust_sliders_width.
      apply Z.ltb_lt in P1, P2. rewrite P1, P2.
      apply W in R1, R2. unfold adjust_width in R1, R2.
      rewrite P1 in R1. rewrite P2 in R2.
      destruct (scaled (width image) f); [by rewrite Lw | discriminate].
    + rewrite !adjust_sliders_height by auto.
      apply Z.ltb_lt in P1, P2. rewrite P1, P2.
      destruct (scaled (height image) f) eqn:E; [by rewrite Lh|].
      exfalso. revert R1. unfold adjust_sliders.
      destruct (adjust_width image f sl1) as [s|e s] eqn:Ew; [|discriminate].
      cbn [and_then]. unfold adjust_height.
      assert (Hs : ImageSliderBox.height s = ImageSliderBox.height sl1).
      { pose proof (adjust_width_height image f sl1) as Hh.
        rewrite Ew in Hh. cbn [state_of] in Hh.
        unfold ImageSliderBox.height. by rewrite Hh. }
      rewrite Hs, P1, E. discriminate.
Qed.

(** Two states of a panel with limits 800 and 600 under the 1/2 button. *)
Lemma adjust_sliders_does_not_compound_witness :
  let image := {| width := 800; height := 600 |} in
  let f := FloatFactor 4 in
  ImageSliderBox.width (state_of (adjust_sliders image (panel 800 600 20 800 600) f))
  = ImageSliderBox.width (state_of (adjust_sliders image (panel 1 17 50 800 600) f)).
Proof.
  apply (proj2 (adjust_sliders_does_not_compound
                  {| width := 800; height := 600 |} (FloatFactor 4))
           (panel 800 600 20 800 600) (panel 1 17 50 800 600)).
  - unfold ImageSliderBox.same_limits. simpl. tauto.
  - vm_compute. reflexivity.
  - vm_compute. reflexivity.
  - vm_compute. reflexivity.
  - vm_compute. reflexivity.
Defined.

(** C10: with an original one pixel wide the 1/2 button sets a width that was
    set to zero, and a width of zero stays at zero under every later sequence
    of scale presses, whatever the factors. *)
Theorem adjust_sliders_can_zero_for_good :
  (forall image sl,
      width image = 1 -> 0 < ImageSliderBox.width sl ->
      ImageSliderBox.width (state_of (adjust_sliders image sl (FloatFactor 4))) = 0)
  /\ (forall image sl fs,
         ImageSliderBox.width sl = 0 ->
         ImageSliderBox.width (press_all image sl fs) = 0).
Proof.
  split.
  - intros image sl H1 Hpos. rewrite adjust_sliders_width, H1.
    apply Z.ltb_lt in Hpos. rewrite Hpos.
    assert (E : scaled 1 (FloatFactor 4) = Some 0) by (by vm_compute).
    rewrite E. unfold RichSlider.clamp. lia.
  - intros image sl fs. apply press_all_width_zero.
Qed.

(** A 1 x 600 original, width 1 set: zero after the 1/2 button, and still
    zero after the 2, 1 and 1.5 buttons. *)
Lemma adjust_sliders_can_zero_for_good_witness :
  let image := {| width := 1; height := 600 |} in
  let sl1 := state_of (adjust_sliders image (panel 1 600 20 800 600) (FloatFactor 4)) in
  ImageSliderBox.width sl1 = 0
  /\ ImageSliderBox.width (press_all image sl1 [IntFactor 2; IntFactor 1; FloatFactor 12]) = 0.
Proof.
  cbv zeta.
  assert (H : ImageSliderBox.width
                (state_of (adjust_sliders {| width := 1; height := 600 |}
                             (panel 1 600 20 800 600) (FloatFactor 4))) = 0).
  { apply (proj1 adjust_sliders_can_zero_for_good);
      [reflexivity | vm_compute; reflexivity]. }
  split; [exact H|].
  apply (proj2 adjust_sliders_can_zero_for_good). exact H.
Defined.

(** ** as_dict and populate *)

(** C4: loading a valid panel from its own [as_dict()] completes and leaves
    every slider, and so width, height and quality, as it was. *)
Theorem populate_as_dict_identity (b : ImageSliderBox.t) :
  ImageSliderBox.valid b ->
  ImageSliderBox.populate (ImageSliderBox.as_dict b) b = Done b.
Proof.
  intros (Hw & Hh & Hq).
  unfold ImageSliderBox.populate, ImageSliderBox.assign, ImageSliderBox.as_dict.
  rewrite lookup_insert_ne, lookup_insert_ne, lookup_insert_eq by done.
  cbn [as_int and_then].
  rewrite lookup_insert_ne, lookup_insert_eq by done.
  cbn [as_int and_then]. rewrite lookup_insert_eq. cbn [as_int].
  unfold ImageSliderBox.set_width, ImageSliderBox.set_height,
    ImageSliderBox.set_quality, ImageSliderBox.width, ImageSliderBox.height,
    ImageSliderBox.quality.
  cbn [ImageSliderBox.image_width ImageSliderBox.image_height
       ImageSliderBox.image_quality].
  rewrite !set_value_valid by assumption.
  by destruct b.
Qed.

(** The panel at 640 x 0, quality 20, within limits 800, 600 and 100. *)
Lemma populate_as_dict_identity_witness :
  ImageSliderBox.valid (panel 640 0 20 800 600)
  /\ ImageSliderBox.populate (ImageSliderBox.as_dict (panel 640 0 20 800 600))
       (panel 640 0 20 800 600)
     = Done (panel 640 0 20 800 600).
Proof.
  assert (Hv : ImageSliderBox.valid (panel 640 0 20 800 600)).
  { unfold ImageSliderBox.valid, RichSlider.valid. simpl. lia. }
  split; [exact Hv|].
  apply (populate_as_dict_identity (panel 640 0 20 800 600)). exact Hv.
Defined.

(** ** get_all_keys *)

Lemma str_le_iff (s1 s2 : string) : str_le s1 s2 <-> str_lt s1 s2 \/ s1 = s2.
Proof.
  unfold str_le, str_lt.
  destruct (String_as_OT.compare_spec s1 s2) as [Heq|Hlt|Hgt].
  - split; [by right | discriminate].
  - split; [by left | discriminate].
  - split; [done|]. intros [Hlt|Heq]; [discriminate|].
    subst s2. exfalso. by apply (StrictOrder_Irreflexive s1).
Qed.

#[global] Instance str_lt_trans : Transitive str_lt.
Proof. intros x y z. apply String_as_OT.lt_strorder. Qed.

#[global] Instance str_le_trans : Transitive str_le.
Proof.
  intros x y z. rewrite !str_le_iff.
  intros [Hxy| ->] [Hyz| ->]; auto. left. by trans y.
Qed.

#[global] Instance str_le_total : Total str_le.
Proof.
  intros x y. unfold str_le.
  destruct (String_as_OT.compare_spec x y) as [Heq|Hlt|Hgt];
    [by left | by left | right].
  unfold String_as_OT.lt in Hgt. by rewrite Hgt.
Qed.

Lemma elem_of_concat_keys (notes : list Note) (k : string) :
  k ∈ concat (keys <$> notes) <-> exists note, note ∈ notes /\ k ∈ keys note.
Proof.
  rewrite list_elem_of_In, in_concat. split.
  - intros (l & Hl & Hk). apply list_elem_of_In, list_elem_of_fmap in Hl.
    destruct Hl as (note & -> & Hn). exists note.
    split; [done | by apply list_elem_of_In].
  - intros (note & Hn & Hk). exists (keys note). split.
    + apply list_elem_of_In, list_elem_of_fmap. by exists note.
    + by apply list_elem_of_In.
Qed.

(** C8: for every collection of notes, also the empty one, the result holds
    exactly the field names that occur in some note, in ascending order, each
    once. *)
Theorem get_all_keys_sorted_union (notes : list Note) :
  (forall k, k ∈ get_all_keys notes
             <-> exists note, note ∈ notes /\ k ∈ keys note)
  /\ StronglySorted str_le (get_all_keys notes)
  /\ NoDup (get_all_keys notes).
Proof.
  unfold get_all_keys, sorted. split; [|split].
  - intros k. rewrite merge_sort_Permutation, elem_of_elements,
      elem_of_list_to_set. apply elem_of_concat_keys.
  - apply StronglySorted_merge_sort; apply _.
  - rewrite merge_sort_Permutation. apply NoDup_elements.
Qed.

(** ** Methods that stay inside the dialog *)

(** [inner m]: [m] changes nothing but the dialog, and on the dialog neither
    of the two button connections. *)
Definition inner (m : Method) : Prop :=
  forall w, exists d',
    state_of (m w) = set_dialog w d'
    /\ accepted_connected d' = accepted_connected (dialog w)
    /\ rejected_connected d' = rejected_connected (dialog w).

Lemma set_dialog_same (w : World) : set_dialog w (dialog w) = w.
Proof. by destruct w. Qed.

Lemma inner_here (w : World) :
  exists d', w = set_dialog w d'
    /\ accepted_connected d' = accepted_connected (dialog w)
    /\ rejected_connected d' = rejected_connected (dialog w).
Proof. exists (dialog w). by rewrite set_dialog_same. Qed.

Lemma inner_seq (m1 m2 : Method) : inner m1 -> inner m2 -> inner (m1 >>> m2).
Proof.
  intros H1 H2 w. unfold seq. specialize (H1 w).
  destruct (m1 w) as [w1|e w1]; cbn in *; [|exact H1].
  destruct H1 as (d1 & -> & Ha1 & Hr1).
  destruct (H2 (set_dialog w d1)) as (d2 & -> & Ha2 & Hr2).
  exists d2. cbn in *. split; [reflexivity|]. split; congruence.
Qed.

Lemma inner_on_dialog (f : Dialog -> Dialog) :
  (forall d, accepted_connected (f d) = accepted_connected d
             /\ rejected_connected (f d) = rejected_connected d) ->
  inner (on_dialog f).
Proof. intros Hf w. exists (f (dialog w)). split; [reflexivity | apply Hf]. Qed.

Lemma inner_addWidget (x : Widget) : inner (addWidget x).
Proof. by apply inner_on_dialog. Qed.

Lemma inner_populate_sliders : inner populate_sliders.
Proof.
  intros w. unfold populate_sliders.
  destruct (ImageSliderBox.populate (config w) (_sliders (dialog w)));
    by eexists.
Qed.

Lemma inner_add_items : inner add_items.
Proof.
  intros w. unfold add_items.
  repeat case_match; try apply inner_here. by eexists.
Qed.

Lemma inner_base_set_initial_values : inner SettingsDialog_set_initial_values.
Proof. apply inner_seq; [apply inner_populate_sliders | apply inner_add_items]. Qed.

Lemma inner_set_kind (m : Method) (w : World) (k : Kind) :
  inner m ->
  exists d', state_of (m (set_kind w k)) = set_dialog w d'
    /\ accepted_connected d' = accepted_connected (dialog w)
    /\ rejected_connected d' = rejected_connected (dialog w).
Proof. intros Hm. destruct (Hm (set_kind w k)) as (d' & -> & ? & ?). by exists d'. Qed.

Lemma inner_set_initial_values index_of : inner (set_initial_values index_of).
Proof.
  intros w. unfold set_initial_values.
  destruct (kind (dialog w)) as [fs rc notes|image|show pattern cbs].
  - repeat case_match;
      first [ by apply inner_set_kind, inner_base_set_initial_values
            | by eexists ].
  - apply inner_base_set_initial_values.
  - revert w. apply inner_seq; [apply inner_base_set_initial_values|].
    intros w. repeat case_match; first [ apply inner_here | by eexists ].
Qed.

Lemma inner_populate_main_vbox : inner populate_main_vbox.
Proof.
  intros w. unfold populate_main_vbox.
  destruct (kind (dialog w)); revert w;
    repeat apply inner_seq; apply inner_addWidget.
Qed.

Lemma populate_main_vbox_done w : raised (populate_main_vbox w) = None.
Proof. unfold populate_main_vbox. by destruct (kind (dialog w)). Qed.

Lemma done_state_of {S} (o : Outcome S) : raised o = None -> o = Done (state_of o).
Proof. by destruct o. Qed.

Lemma outcome_cases {S} (o : Outcome S) :
  o = Done (state_of o) \/ exists e, o = Raised e (state_of o).
Proof. destruct o; [by left | right; by eexists]. Qed.

(** [setup_ui] emits the marks of its phases and nothing else, never touches
    the configuration, can only raise in its last phase, and leaves both
    buttons connected when it completes. *)
Lemma setup_ui_spec index_of w :
  exists d',
    (setup_ui index_of w
     = Done {| dialog := d'; config := config w;
               effects := effects w ++ setup_marks |}
     /\ accepted_connected d' = true /\ rejected_connected d' = true)
    \/ (exists e,
          setup_ui index_of w
          = Raised e {| dialog := d'; config := config w;
                        effects := effects w ++ setup_marks_load_raised |}).
Proof.
  unfold setup_ui, seq, emit, create_main_layout, setup_logic, on_dialog.
  cbn [and_then dialog config effects].
  match goal with |- context [populate_main_vbox ?w1] =>
    destruct (inner_populate_main_vbox w1) as (d2 & E2 & _ & _);
    rewrite (done_state_of _ (populate_main_vbox_done w1)), E2
  end.
  cbn [and_then dialog config effects set_dialog].
  match goal with |- context [set_initial_values index_of ?w3] =>
    destruct (inner_set_initial_values index_of w3) as (d4 & E4 & Ha & Hr);
    destruct (outcome_cases (set_initial_values index_of w3)) as [->|[e ->]];
    rewrite E4
  end; exists d4; cbn in Ha, Hr;
    cbn [and_then dialog config effects set_dialog];
    rewrite <- !app_assoc; cbn [app]; [left | right; exists e]; done.
Qed.

(** ** accept *)

Lemma SettingsDialog_accept_eq w :
  SettingsDialog_accept w
  = Done {| dialog := with_result (dialog w) Accepted;
            config := <["saved_presets" := PyList (presets_editor (dialog w))]>
                        (ImageSliderBox.as_dict (_sliders (dialog w)) ∪ config w);
            effects := effects w
                       ++ [WriteConfig
                             (<["saved_presets" := PyList (presets_editor (dialog w))]>
                                (ImageSliderBox.as_dict (_sliders (dialog w))
                                 ∪ config w))] |}.
Proof. reflexivity. Qed.

Lemma accept_blocked w :
  commit_blocked (dialog w) = true ->
  accept w = Done {| dialog := dialog w; config := config w;
                     effects := effects w ++ [Commit; no_fields_message] |}.
Proof.
  unfold commit_blocked, accept, accept_body, seq, emit.
  cbn [and_then dialog config effects].
  destruct (kind (dialog w)) as [fs rc notes| |]; [|discriminate..].
  intros ->. cbn. by rewrite <- app_assoc.
Qed.

Lemma accept_goes_through w :
  commit_blocked (dialog w) = false ->
  exists cfg',
    accept w = Done {| dialog := with_result (dialog w) Accepted;
                       config := cfg';
                       effects := effects w ++ [Commit; WriteConfig cfg'] |}
    /\ exists cfg1,
        cfg' = <["saved_presets" := PyList (presets_editor (dialog w))]>
                 (ImageSliderBox.as_dict (_sliders (dialog w)) ∪ cfg1)
        /\ cfg1 = match kind (dialog w) with
                  | BulkConvertDialog fs rc _ =>
                      <["bulk_reconvert_webp" := PyBool rc]>
                        (<["bulk_convert_fields" :=
                             PyList (PyStr <$> FieldSelector.selected_fields fs)]>
                           (config w))
                  | PasteDialog _ => config w
                  | SettingsMenuDialog show pattern cbs =>
                      store_checkboxes cbs
                        (<["filename_pattern_num" :=
                             PyInt (ComboBox.currentIndex pattern)]>
                           (<["show_settings" := ComboBox.currentData show]>
                              (config w)))
                  end.
Proof.
  unfold commit_blocked, accept, accept_body, seq, emit.
  cbn [and_then dialog config effects].
  destruct (kind (dialog w)) as [fs rc notes|image|show pattern cbs];
    [intros ->|intros _..]; cbn; rewrite <- app_assoc;
    eexists; (split; [reflexivity|]); eexists; split; reflexivity.
Qed.

Lemma as_dict_lookup_other (b : ImageSliderBox.t) (key : string) :
  key <> "image_width" -> key <> "image_height" -> key <> "image_quality" ->
  ImageSliderBox.as_dict b !! key = None.
Proof.
  intros H1 H2 H3. unfold ImageSliderBox.as_dict.
  by rewrite !lookup_insert_ne, lookup_empty.
Qed.

(** C2: in a bulk-convert dialog, [accept] with the field selector checked and
    no field selected completes without touching the configuration or the
    dialog, which so stays open, shows its message once and writes nothing to
    the store; in every other case it stores the selected fields and the
    reconvert flag and accepts the dialog. *)
Theorem bulk_accept_commit_or_nothing w fs rc notes :
  kind (dialog w) = BulkConvertDialog fs rc notes ->
  (FieldSelector.isChecked fs = true /\ FieldSelector.selected_fields fs = [] ->
   exists w',
     accept w = Done w' /\ config w' = config w /\ dialog w' = dialog w
     /\ effects w' = effects w ++ [Commit; no_fields_message])
  /\ (~ (FieldSelector.isChecked fs = true
         /\ FieldSelector.selected_fields fs = []) ->
      exists w',
        accept w = Done w'
        /\ config w' !! "bulk_convert_fields"
           = Some (PyList (PyStr <$> FieldSelector.selected_fields fs))
        /\ config w' !! "bulk_reconvert_webp" = Some (PyBool rc)
        /\ result (dialog w') = Accepted
        /\ effects w' = effects w ++ [Commit; WriteConfig (config w')]).
Proof.
  intros Hk. split.
  - intros [Hc He]. eexists. split; [apply accept_blocked|by cbn].
    unfold commit_blocked. by rewrite Hk, Hc, He.
  - intros Hn.
    destruct (accept_goes_through w) as (cfg' & -> & cfg1 & -> & ->).
    { unfold commit_blocked. rewrite Hk.
      destruct (FieldSelector.isChecked fs); [|done].
      destruct (FieldSelector.selected_fields fs); [|done].
      exfalso. by apply Hn. }
    rewrite Hk. eexists. split; [reflexivity|]. cbn.
    repeat split.
    + rewrite lookup_insert_ne by done.
      rewrite lookup_union_r by (by apply as_dict_lookup_other).
      rewrite lookup_insert_ne by done. by rewrite lookup_insert_eq.
    + rewrite lookup_insert_ne by done.
      rewrite lookup_union_r by (by apply as_dict_lookup_other).
      by rewrite lookup_insert_eq.
Qed.

(** A bulk-convert dialog with the selector checked and nothing ticked. *)
Lemma bulk_accept_commit_or_nothing_witness :
  let fs := FieldSelector.Build true ["Back"; "Front"] [] in
  let w := sample_world (BulkConvertDialog fs true []) in
  exists w',
    accept w = Done w' /\ config w' = config w /\ dialog w' = dialog w
    /\ effects w' = effects w ++ [Commit; no_fields_message].
Proof.
  apply (proj1 (bulk_accept_commit_or_nothing
                  (sample_world
                     (BulkConvertDialog
                        (FieldSelector.Build true ["Back"; "Front"] []) true []))
                  (FieldSelector.Build true ["Back"; "Front"] []) true []
                  eq_refl)).
  split; reflexivity.
Defined.

(** C7 as stated: a commit writes nothing to the store.  It does: on the
    sample paste dialog [accept] calls [write_config]. *)
Lemma accept_writes_to_store :
  ~ commit_leaves_store_alone
      (sample_world (PasteDialog {| width := 800; height := 600 |})).
Proof.
  unfold commit_leaves_store_alone. intros H.
  apply (f_equal length) in H. vm_compute in H. discriminate.
Qed.

(** C7, amended: whenever [accept] is not blocked by the bulk-convert check it
    completes, accepts the dialog, and itself calls [write_config] exactly
    once, after all its writes to the configuration map, which is the map the
    store receives; a blocked [accept] writes nothing to the store. *)
Theorem accept_persists_itself w :
  (commit_blocked (dialog w) = false ->
   exists w',
     accept w = Done w' /\ result (dialog w') = Accepted
     /\ effects w' = effects w ++ [Commit; WriteConfig (config w')]
     /\ writes (effects w') = writes (effects w) ++ [config w'])
  /\ (commit_blocked (dialog w) = true ->
      writes (effects (state_of (accept w))) = writes (effects w)).
Proof.
  split; intros Hb.
  - destruct (accept_goes_through w Hb) as (cfg' & -> & _).
    eexists. split; [reflexivity|]. cbn. repeat split.
    unfold writes. by rewrite omap_app.
  - rewrite (accept_blocked w Hb). cbn. unfold writes.
    rewrite omap_app. cbn. by rewrite app_nil_r.
Qed.

(** The sample paste dialog: [accept] goes through and writes the store. *)
Lemma accept_persists_itself_witness :
  let w := sample_world (PasteDialog {| width := 800; height := 600 |}) in
  exists w',
    accept w = Done w' /\ result (dialog w') = Accepted
    /\ effects w' = effects w ++ [Commit; WriteConfig (config w')]
    /\ writes (effects w') = writes (effects w) ++ [config w'].
Proof.
  apply (proj1 (accept_persists_itself
                  (sample_world (PasteDialog {| width := 800; height := 600 |})))).
  reflexivity.
Defined.

(** ** The event loop *)

Lemma Forall_after_setup_app (l1 l2 : list Effect) :
  Forall after_setup l1 -> Forall after_setup l2 -> Forall after_setup (l1 ++ l2).
Proof. intros. by apply Forall_app. Qed.






Lemma reject_eq w :
  reject w = Done {| dialog := with_result (dialog w) Rejected;
                     config := config w; effects := effects w ++ [Cancel] |}.
Proof. reflexivity. Qed.




(** Apart from the OK button no event reaches the configuration or the
    store. *)
Lemma handle_frame ev w :
  is_ok_click ev = false ->
  config (state_of (handle ev w)) = config w
  /\ writes (effects (state_of (handle ev w))) = writes (effects w).
Proof.
  intros Hok. unfold handle.
  destruct ev; try discriminate;
    try (destruct (kind (dialog w)); cbn; repeat case_match; by cbn).
  destruct (rejected_connected (dialog w)), (kind (dialog w)); try done;
    rewrite reject_eq; cbn; unfold writes; rewrite omap_app;
    cbn; by rewrite app_nil_r.
Qed.

Lemma dispatch_frame ev w :
  is_ok_click ev = false ->
  config (dispatch ev w) = config w
  /\ writes (effects (dispatch ev w)) = writes (effects w).
Proof.
  intros Hok. unfold dispatch. pose proof (handle_frame ev w Hok) as [Hc Hw].
  destruct (handle ev w) as [w'|e w']; cbn in *; [done|].
  split; [done|]. unfold writes in *. rewrite omap_app. cbn.
  by rewrite app_nil_r.
Qed.

Lemma event_loop_frame evs : forall w,
  Forall (fun ev => is_ok_click ev = false) evs ->
  config (event_loop evs w) = config w
  /\ writes (effects (event_loop evs w)) = writes (effects w).
Proof.
  induction evs as [|ev evs IH]; intros w Hall; cbn.
  - by destruct (result (dialog w)).
  - destruct (result (dialog w)); try done.
    inversion Hall as [|? ? Hev Hrest]; subst.
    destruct (dispatch_frame ev w Hev) as [Hc Hw].
    destruct (IH (dispatch ev w) Hrest) as [Hc' Hw'].
    split; congruence.
Qed.

(** No event but the two buttons ends the dialog, and none disconnects the
    Cancel button. *)
Lemma dispatch_keeps ev w :
  is_ok_click ev = false ->
  rejected_connected (dialog (dispatch ev w)) = rejected_connected (dialog w)
  /\ (result (dialog (dispatch ev w)) = result (dialog w)
      \/ result (dialog (dispatch ev w)) = Rejected).
Proof.
  intros Hok. unfold dispatch, handle.
  destruct ev; try discriminate;
    destruct (rejected_connected (dialog w)) eqn:Hr, (kind (dialog w)); cbn;
    repeat match goal with
    | |- context [factors !! ?i] => destruct (factors !! i); cbn
    | |- context [adjust_sliders ?a ?b ?c] =>
        destruct (adjust_sliders a b c); cbn
    end; rewrite ?Hr; by auto.
Qed.

Lemma dispatch_cancel w :
  rejected_connected (dialog w) = true ->
  result (dialog (dispatch CancelClicked w)) = Rejected.
Proof.
  intros Hr. unfold dispatch, handle.
  destruct (kind (dialog w)); by rewrite Hr.
Qed.

Lemma event_loop_cancelled evs : forall w,
  Forall (fun ev => is_ok_click ev = false) evs ->
  rejected_connected (dialog w) = true ->
  result (dialog w) <> Accepted ->
  result (dialog (event_loop (evs ++ [CancelClicked]) w)) = Rejected.
Proof.
  induction evs as [|ev evs IH]; intros w Hall Hr Hres; cbn.
  - destruct (result (dialog w)) eqn:E; try done.
    pose proof (dispatch_cancel w Hr) as Hc.
    by destruct (result (dialog (dispatch CancelClicked w))) eqn:E'.
  - destruct (result (dialog w)) eqn:E; try done.
    inversion Hall as [|? ? Hev Hrest]; subst.
    destruct (dispatch_keeps ev w Hev) as [Hr' Hres'].
    apply IH; [done | congruence |].
    destruct Hres' as [-> | ->]; [by rewrite E | done].
Qed.

Lemma writes_marks (tr : list Effect) :
  writes (tr ++ setup_marks ++ [Interactive]) = writes tr.
Proof. unfold writes. rewrite omap_app. cbn. by rewrite app_nil_r. Qed.

Lemma writes_marks_load_raised (tr : list Effect) :
  writes (tr ++ setup_marks_load_raised) = writes tr.
Proof. unfold writes. rewrite omap_app. cbn. by rewrite app_nil_r. Qed.

(** [exec] once [setup_ui] has completed. *)
Lemma exec_after_setup index_of evs w d' :
  setup_ui index_of w
  = Done {| dialog := d'; config := config w;
            effects := effects w ++ setup_marks |} ->
  exec index_of evs w
  = Done (event_loop evs
            {| dialog := with_result d' Running; config := config w;
               effects := effects w ++ setup_marks ++ [Interactive] |}).
Proof.
  intros E. unfold exec, seq at 1. rewrite E.
  cbn. by rewrite <- app_assoc.
Qed.

(** ** The claims about the life of a dialog *)

(** C5: whichever the dialog, after any sequence of slider moves, checkbox
    and selector changes and scale-button presses, ended by Cancel and with no
    press of OK, the configuration map is the one [exec] started with and the
    store has received nothing; if the set-up completed, the dialog ends
    rejected. *)
Theorem cancel_has_no_side_effects index_of evs w :
  Forall (fun ev => is_ok_click ev = false) evs ->
  let o := exec index_of (evs ++ [CancelClicked]) w in
  config (state_of o) = config w
  /\ writes (effects (state_of o)) = writes (effects w)
  /\ (raised o = None -> result (dialog (state_of o)) = Rejected).
Proof.
  intros Hall o. subst o.
  destruct (setup_ui_spec index_of w) as (d' & [(E & Ha & Hr) | (e & E)]).
  - rewrite (exec_after_setup _ _ _ _ E). cbn [state_of raised].
    assert (Hall' : Forall (fun ev => is_ok_click ev = false)
                      (evs ++ [CancelClicked])).
    { apply Forall_app. split; [done | by repeat constructor]. }
    match goal with |- context [event_loop _ ?w1] =>
      destruct (event_loop_frame _ w1 Hall') as [Hc Hw];
      pose proof (event_loop_cancelled evs w1 Hall) as Hres
    end.
    cbn [config effects dialog] in *. rewrite writes_marks in Hw.
    repeat split; [done | done |]. intros _. by apply Hres.
  - unfold exec, seq. rewrite E. cbn.
    rewrite writes_marks_load_raised. by repeat split.
Qed.

(** A paste dialog: the 2 button, a move of the quality slider, Cancel. *)
Lemma cancel_has_no_side_effects_witness :
  let w := sample_world (PasteDialog {| width := 800; height := 600 |}) in
  let o := exec (fun _ => 0)
             ([ScaleButtonClicked 5; SliderMoved Quality 75] ++ [CancelClicked]) w in
  config (state_of o) = config w
  /\ writes (effects (state_of o)) = writes (effects w)
  /\ (raised o = None -> result (dialog (state_of o)) = Rejected).
Proof.
  apply (cancel_has_no_side_effects (fun _ => 0)
           [ScaleButtonClicked 5; SliderMoved Quality 75]
           (sample_world (PasteDialog {| width := 800; height := 600 |}))).
  repeat constructor.
Defined.

(** * Further properties of the code *)

(** ** More on the scale buttons *)

Lemma adjust_sliders_quality_limits image sl f :
  ImageSliderBox.image_quality (state_of (adjust_sliders image sl f))
  = ImageSliderBox.image_quality sl
  /\ ImageSliderBox.same_limits sl (state_of (adjust_sliders image sl f)).
Proof.
  destruct sl as [[wv wl] [hv hl] [qv ql]].
  unfold adjust_sliders, adjust_width, adjust_height, ImageSliderBox.same_limits,
    ImageSliderBox.width, ImageSliderBox.height.
  cbn. case_press; by cbn.
Qed.

(** However many scale buttons are pressed, in whatever order and whether or
    not a press raises, the quality slider and the limits of all three
    sliders stay as they were. *)
Theorem press_all_keeps_quality_and_limits image fs : forall sl,
  ImageSliderBox.image_quality (press_all image sl fs)
  = ImageSliderBox.image_quality sl
  /\ ImageSliderBox.same_limits sl (press_all image sl fs).
Proof.
  induction fs as [|f fs IH]; intros sl; cbn [press_all fold_left].
  - unfold ImageSliderBox.same_limits. by repeat split.
  - destruct (IH (state_of (adjust_sliders image sl f))) as (Hq & Lw & Lh & Lq).
    destruct (adjust_sliders_quality_limits image sl f) as (Hq1 & Lw1 & Lh1 & Lq1).
    unfold press_all in *. rewrite Hq, Hq1.
    unfold ImageSliderBox.same_limits. rewrite <- Lw, <- Lh, <- Lq.
    by repeat split.
Qed.

(** Past [2 ^ 53] rounding to 53 bits never goes below the power of two at or
    under the number. *)
Lemma round53_large (k : Z) :
  2 ^ 53 <= Z.abs k -> 2 ^ Z.log2 (Z.abs k) <= Z.abs (round53 k).
Proof.
  intros Hk. unfold round53.
  destruct (Z.ltb_spec (Z.abs k) (2 ^ 53)) as [Hlt|_]; [lia|].
  set (a := Z.abs k) in *.
  assert (Ha : 0 < a) by (pose proof (Z.pow_pos_nonneg 2 53); lia).
  assert (Hlog : 53 <= Z.log2 a).
  { apply Z.log2_le_pow2; [lia | exact Hk]. }
  set (s := Z.log2 a - 52).
  assert (Hs : 0 < s) by (unfold s; lia).
  destruct (Z.log2_spec a Ha) as [Hlo _].
  assert (Hsplit : 2 ^ Z.log2 a = 2 ^ 52 * 2 ^ s).
  { unfold s. rewrite <- Z.pow_add_r by lia. f_equal. lia. }
  assert (Hps : 0 < 2 ^ s) by (apply Z.pow_pos_nonneg; lia).
  set (q := Z.shiftr a s).
  assert (Hq : 2 ^ 52 <= q).
  { unfold q. rewrite Z.shiftr_div_pow2 by lia.
    apply Z.div_le_lower_bound; [lia|]. lia. }
  set (m := if a - Z.shiftl q s <? Z.shiftl 1 (s - 1) then q
            else if Z.shiftl 1 (s - 1) <? a - Z.shiftl q s then q + 1
                 else if Z.even q then q else q + 1).
  assert (Hm : q <= m) by (unfold m; repeat case_match; lia).
  rewrite Z.shiftl_mul_pow2 by lia.
  rewrite Z.abs_mul.
  assert (Hsgn : Z.abs (Z.sgn k) = 1) by (unfold a in Ha; lia).
  rewrite Hsgn, Z.mul_1_l, Z.abs_mul.
  rewrite (Z.abs_eq (2 ^ s)) by lia.
  assert (H52 : 0 < 2 ^ 52) by (apply Z.pow_pos_nonneg; lia).
  rewrite (Z.abs_eq m) by lia.
  rewrite Hsplit. apply Z.mul_le_mono_nonneg_r; lia.
Qed.

Lemma float_of_int_huge (w : Z) : 2 ^ 1024 <= Z.abs w -> float_of_int w = None.
Proof.
  intros Hw. unfold float_of_int, float_overflows.
  assert (H53 : 2 ^ 53 <= 2 ^ 1024) by (apply Z.pow_le_mono_r; lia).
  pose proof (round53_large w ltac:(lia)) as Hr.
  assert (Hlog : 1024 <= Z.log2 (Z.abs w)).
  { apply Z.log2_le_pow2; [|exact Hw].
    pose proof (Z.pow_pos_nonneg 2 1024). lia. }
  assert (Hp : 2 ^ 1024 <= 2 ^ Z.log2 (Z.abs w)) by (apply Z.pow_le_mono_r; lia).
  destruct (Z.leb_spec (8 * 2 ^ 1024) (Z.abs (8 * round53 w))) as [_|Hlt];
    [reflexivity|].
  rewrite Z.abs_mul in Hlt. change (Z.abs 8) with 8 in Hlt. lia.
Qed.

Lemma scaled_float_huge (w e : Z) :
  2 ^ 1024 <= Z.abs w -> scaled w (FloatFactor e) = None.
Proof. intros Hw. unfold scaled, py_mul. by rewrite float_of_int_huge. Qed.

(** The 1x and 2x buttons multiply ints and complete whatever the size of the
    original; a button with a float factor raises [OverflowError] when a
    dimension is set whose original side is [2 ^ 1024] or more in magnitude,
    and when that dimension is the width nothing on the panel changes: the
    height is not attempted. *)
Theorem scale_press_overflow :
  (forall image sl n, raised (adjust_sliders image sl (IntFactor n)) = None)
  /\ (forall image sl e,
         (0 < ImageSliderBox.width sl /\ 2 ^ 1024 <= Z.abs (width image))
         \/ (0 < ImageSliderBox.height sl /\ 2 ^ 1024 <= Z.abs (height image)) ->
         raised (adjust_sliders image sl (FloatFactor e)) = Some OverflowError)
  /\ (forall image sl e,
         0 < ImageSliderBox.width sl -> 2 ^ 1024 <= Z.abs (width image) ->
         adjust_sliders image sl (FloatFactor e) = Raised OverflowError sl).
Proof.
  split; [|split].
  - intros image sl n.
    by apply (adjust_sliders_completes image sl (IntFactor n)
                (width image * n) (height image * n)).
  - intros image sl e H.
    unfold adjust_sliders, adjust_width, adjust_height.
    destruct (0 <? ImageSliderBox.width sl) eqn:Ew.
    + destruct (scaled (width image) (FloatFactor e)) as [v|] eqn:Es; [|done].
      cbn [and_then].
      destruct H as [[_ Hw]|[Hh Hbig]];
        [by rewrite scaled_float_huge in Es|].
      apply Z.ltb_lt in Hh. unfold ImageSliderBox.height in *. cbn.
      rewrite Hh. by rewrite scaled_float_huge.
    + cbn [and_then]. destruct H as [[Hw _]|[Hh Hbig]];
        [apply Z.ltb_lt in Hw; congruence|].
      apply Z.ltb_lt in Hh. rewrite Hh. by rewrite scaled_float_huge.
  - intros image sl e Hw Hbig. unfold adjust_sliders, adjust_width.
    apply Z.ltb_lt in Hw. rewrite Hw. by rewrite scaled_float_huge.
Qed.

(** A panel with the width set and an original [2 ^ 1024] wide under the 1/2
    button. *)
Lemma scale_press_overflow_witness :
  adjust_sliders {| width := 2 ^ 1024; height := 600 |} (panel 800 600 20 800 600)
    (FloatFactor 4)
  = Raised OverflowError (panel 800 600 20 800 600).
Proof.
  apply (proj2 (proj2 scale_press_overflow)
           {| width := 2 ^ 1024; height := 600 |} (panel 800 600 20 800 600) 4).
  - vm_compute. reflexivity.
  - apply Z.leb_le. vm_compute. reflexivity.
Defined.

(** ** More on populate *)

Lemma assign_state (set : ImageSliderBox.t -> Z -> ImageSliderBox.t) cfg key b :
  ImageSliderBox.assign set cfg key b
  = match as_int (cfg !! key) with
    | Some v => Done (set b v)
    | None => Raised TypeError b
    end.
Proof. reflexivity. Qed.

(** [populate] loads the sliders in the order width, height, quality and
    stops at the first key that is missing or holds no number, with
    [TypeError]: without a width nothing is loaded and the panel is as it
    was; with a width and no height the width is loaded, cut to the range of
    its slider, and height and quality are as they were; with width and
    height and no quality both are loaded and the quality is as it was; with
    all three the call completes and all three are loaded.  The values are
    taken within the range of a C int. *)
Theorem populate_loads_in_order cfg b :
  (as_int (cfg !! "image_width") = None ->
   ImageSliderBox.populate cfg b = Raised TypeError b)
  /\ (forall w,
        as_int (cfg !! "image_width") = Some w -> in_c_int w = true ->
        as_int (cfg !! "image_height") = None ->
        let b' := state_of (ImageSliderBox.populate cfg b) in
        raised (ImageSliderBox.populate cfg b) = Some TypeError
        /\ ImageSliderBox.width b'
           = RichSlider.clamp w 0 (RichSlider.limit (ImageSliderBox.image_width b))
        /\ ImageSliderBox.image_height b' = ImageSliderBox.image_height b
        /\ ImageSliderBox.image_quality b' = ImageSliderBox.image_quality b)
  /\ (forall w h,
        as_int (cfg !! "image_width") = Some w -> in_c_int w = true ->
        as_int (cfg !! "image_height") = Some h -> in_c_int h = true ->
        as_int (cfg !! "image_quality") = None ->
        let b' := state_of (ImageSliderBox.populate cfg b) in
        raised (ImageSliderBox.populate cfg b) = Some TypeError
        /\ ImageSliderBox.width b'
           = RichSlider.clamp w 0 (RichSlider.limit (ImageSliderBox.image_width b))
        /\ ImageSliderBox.height b'
           = RichSlider.clamp h 0 (RichSlider.limit (ImageSliderBox.image_height b))
        /\ ImageSliderBox.image_quality b' = ImageSliderBox.image_quality b)
  /\ (forall w h q,
        as_int (cfg !! "image_width") = Some w -> in_c_int w = true ->
        as_int (cfg !! "image_height") = Some h -> in_c_int h = true ->
        as_int (cfg !! "image_quality") = Some q -> in_c_int q = true ->
        let b' := state_of (ImageSliderBox.populate cfg b) in
        raised (ImageSliderBox.populate cfg b) = None
        /\ ImageSliderBox.width b'
           = RichSlider.clamp w 0 (RichSlider.limit (ImageSliderBox.image_width b))
        /\ ImageSliderBox.height b'
           = RichSlider.clamp h 0 (RichSlider.limit (ImageSliderBox.image_height b))
        /\ ImageSliderBox.quality b'
           = RichSlider.clamp q 0 (RichSlider.limit (ImageSliderBox.image_quality b))
        /\ ImageSliderBox.same_limits b b').
Proof.
  unfold ImageSliderBox.populate. rewrite !assign_state.
  split; [by intros ->|]. split; [|split].
  - intros w Hw _ Hh. rewrite Hw. cbn [and_then].
    rewrite assign_state, Hh. by cbn.
  - intros w h Hw _ Hh _ Hq. rewrite Hw. cbn [and_then].
    rewrite assign_state, Hh. cbn [and_then].
    rewrite assign_state, Hq. by cbn.
  - intros w h q Hw _ Hh _ Hq _. rewrite Hw. cbn [and_then].
    rewrite assign_state, Hh. cbn [and_then].
    rewrite assign_state, Hq. unfold ImageSliderBox.same_limits. by cbn.
Qed.

(** A configuration with a width that is beyond the slider and no height. *)
Lemma populate_loads_in_order_witness :
  let cfg : gmap string pyval := <["image_width" := PyInt 5000]> ∅ in
  let b' := state_of (ImageSliderBox.populate cfg (panel 0 17 20 800 600)) in
  raised (ImageSliderBox.populate cfg (panel 0 17 20 800 600)) = Some TypeError
  /\ ImageSliderBox.width b' = RichSlider.clamp 5000 0 800
  /\ ImageSliderBox.image_height b' = RichSlider.Build 17 600
  /\ ImageSliderBox.image_quality b' = RichSlider.Build 20 100.
Proof.
  apply (proj1 (proj2 (populate_loads_in_order
                         (<["image_width" := PyInt 5000]> ∅)
                         (panel 0 17 20 800 600))) 5000).
  - reflexivity.
  - vm_compute. reflexivity.
  - reflexivity.
Defined.

(** ** More on accept *)

Lemma store_checkboxes_lookup_ne cbs : forall cfg key,
  key ∉ cbs.*1 -> store_checkboxes cbs cfg !! key = cfg !! key.
Proof.
  unfold store_checkboxes.
  induction cbs as [|[k b] cbs IH]; intros cfg key Hn; cbn; [done|].
  cbn in Hn. apply not_elem_of_cons in Hn as [Hne Hn].
  rewrite IH by done. by rewrite lookup_insert_ne.
Qed.

Lemma store_checkboxes_is_Some cbs : forall cfg key,
  is_Some (cfg !! key) -> is_Some (store_checkboxes cbs cfg !! key).
Proof.
  unfold store_checkboxes.
  induction cbs as [|[k b] cbs IH]; intros cfg key Hs; cbn; [done|].
  apply IH. destruct (decide (k = key)) as [->|Hne].
  - rewrite lookup_insert_eq. by eexists.
  - by rewrite lookup_insert_ne.
Qed.

Lemma store_checkboxes_lookup cbs : forall cfg k b,
  NoDup cbs.*1 -> (k, b) ∈ cbs ->
  store_checkboxes cbs cfg !! k = Some (PyBool b).
Proof.
  unfold store_checkboxes.
  induction cbs as [|[k0 b0] cbs IH]; intros cfg k b Hnd Hin; cbn.
  - by apply elem_of_nil in Hin.
  - cbn in Hnd. apply NoDup_cons in Hnd as [Hfresh Hnd].
    apply elem_of_cons in Hin as [Heq|Hin].
    + simplify_eq.
      pose proof (store_checkboxes_lookup_ne cbs (<[k0:=PyBool b0]> cfg) k0 Hfresh) as E.
      unfold store_checkboxes in E. rewrite E. by rewrite lookup_insert_eq.
    + by apply IH.
Qed.

Lemma as_dict_lookup_width b :
  ImageSliderBox.as_dict b !! "image_width" = Some (PyInt (ImageSliderBox.width b)).
Proof.
  unfold ImageSliderBox.as_dict.
  by rewrite lookup_insert_ne, lookup_insert_ne, lookup_insert_eq by done.
Qed.

Lemma as_dict_lookup_height b :
  ImageSliderBox.as_dict b !! "image_height" = Some (PyInt (ImageSliderBox.height b)).
Proof.
  unfold ImageSliderBox.as_dict.
  by rewrite lookup_insert_ne, lookup_insert_eq by done.
Qed.

Lemma as_dict_lookup_quality b :
  ImageSliderBox.as_dict b !! "image_quality" = Some (PyInt (ImageSliderBox.quality b)).
Proof. unfold ImageSliderBox.as_dict. apply lookup_insert_eq. Qed.

(** The four keys of the base class in the map [SettingsDialog.accept]
    leaves, whatever map it started from. *)
Lemma base_accept_lookups (d : Dialog) (cfg1 : gmap string pyval) :
  let cfg' := <["saved_presets" := PyList (presets_editor d)]>
                (ImageSliderBox.as_dict (_sliders d) ∪ cfg1) in
  cfg' !! "image_width" = Some (PyInt (ImageSliderBox.width (_sliders d)))
  /\ cfg' !! "image_height" = Some (PyInt (ImageSliderBox.height (_sliders d)))
  /\ cfg' !! "image_quality" = Some (PyInt (ImageSliderBox.quality (_sliders d)))
  /\ cfg' !! "saved_presets" = Some (PyList (presets_editor d)).
Proof.
  cbv zeta. repeat split.
  - rewrite lookup_insert_ne by done.
    apply lookup_union_Some_l, as_dict_lookup_width.
  - rewrite lookup_insert_ne by done.
    apply lookup_union_Some_l, as_dict_lookup_height.
  - rewrite lookup_insert_ne by done.
    apply lookup_union_Some_l, as_dict_lookup_quality.
  - by rewrite lookup_insert_eq.
Qed.

(** Whichever the dialog, an [accept] that goes through leaves the values of
    the three sliders and the list of presets under their four keys: nothing
    a subclass stores can take their place. *)
Theorem accept_stores_panel w :
  commit_blocked (dialog w) = false ->
  let cfg' := config (state_of (accept w)) in
  cfg' !! "image_width"
  = Some (PyInt (ImageSliderBox.width (_sliders (dialog w))))
  /\ cfg' !! "image_height"
     = Some (PyInt (ImageSliderBox.height (_sliders (dialog w))))
  /\ cfg' !! "image_quality"
     = Some (PyInt (ImageSliderBox.quality (_sliders (dialog w))))
  /\ cfg' !! "saved_presets" = Some (PyList (presets_editor (dialog w))).
Proof.
  intros Hb. destruct (accept_goes_through w Hb) as (cfg' & -> & cfg1 & -> & _).
  cbn [state_of config]. apply base_accept_lookups.
Qed.

(** A settings-menu dialog with a checkbox named like a slider key. *)
Lemma accept_stores_panel_witness :
  let d := with_sliders
             (construct 800 600
                (SettingsMenuDialog (ComboBox.Build [] (-1)) (ComboBox.Build [] (-1))
                   [("image_width", true)]))
             (panel 640 0 20 800 600) in
  config (state_of (accept {| dialog := d; config := ∅; effects := [] |}))
    !! "image_width" = Some (PyInt 640).
Proof.
  apply (accept_stores_panel
           {| dialog := with_sliders
                          (construct 800 600
                             (SettingsMenuDialog (ComboBox.Build [] (-1))
                                (ComboBox.Build [] (-1)) [("image_width", true)]))
                          (panel 640 0 20 800 600);
              config := ∅; effects := [] |}).
  reflexivity.
Defined.

(** An [accept] that goes through removes no key from the configuration and
    leaves every key it does not assign to with the value it had. *)
Theorem accept_frame w :
  commit_blocked (dialog w) = false ->
  let cfg' := config (state_of (accept w)) in
  (forall key, key ∉ written_keys (dialog w) -> cfg' !! key = config w !! key)
  /\ (forall key, is_Some (config w !! key) -> is_Some (cfg' !! key)).
Proof.
  intros Hb. destruct (accept_goes_through w Hb) as (cfg' & -> & cfg1 & -> & ->).
  cbn [state_of config]. unfold written_keys, base_keys. split.
  - intros key Hn. rewrite !not_elem_of_app, !not_elem_of_cons in Hn.
    destruct Hn as [(Hw & Hh & Hq & Hp & _) Hk].
    rewrite lookup_insert_ne by done.
    rewrite lookup_union_r by (by apply as_dict_lookup_other).
    destruct (kind (dialog w)) as [fs rc notes| |show pattern cbs].
    + rewrite !not_elem_of_cons in Hk. destruct Hk as (? & ? & _).
      by rewrite !lookup_insert_ne.
    + done.
    + rewrite !not_elem_of_cons in Hk. destruct Hk as (? & ? & Hc).
      rewrite store_checkboxes_lookup_ne by done.
      by rewrite !lookup_insert_ne.
  - intros key Hs.
    destruct (decide (key = "saved_presets")) as [->|Hne];
      [rewrite lookup_insert_eq; by eexists|].
    rewrite lookup_insert_ne by done.
    apply lookup_union_is_Some. right.
    destruct (kind (dialog w)) as [fs rc notes| |show pattern cbs]; [|done|].
    + rewrite !lookup_insert_is_Some'. auto.
    + apply store_checkboxes_is_Some. rewrite !lookup_insert_is_Some'. auto.
Qed.

(** A bulk-convert dialog over a configuration with a key of its own. *)
Lemma accept_frame_witness :
  let w := {| dialog := construct 800 600
                          (BulkConvertDialog (FieldSelector.Build false [] []) true []);
              config := <["copy_paste" := PyBool true]> ∅; effects := [] |} in
  config (state_of (accept w)) !! "copy_paste" = Some (PyBool true).
Proof.
  cbv zeta.
  rewrite (proj1 (accept_frame
             {| dialog := construct 800 600
                            (BulkConvertDialog (FieldSelector.Build false [] []) true []);
                config := <["copy_paste" := PyBool true]> ∅; effects := [] |}
             eq_refl) "copy_paste").
  - reflexivity.
  - unfold written_keys, base_keys. simpl. rewrite !not_elem_of_cons.
    repeat split; try discriminate. apply not_elem_of_nil.
Defined.

(** ** From one dialog to the next *)

Lemma populate_from_lookups cfg sl0 s :
  cfg !! "image_width" = Some (PyInt (ImageSliderBox.width s)) ->
  cfg !! "image_height" = Some (PyInt (ImageSliderBox.height s)) ->
  cfg !! "image_quality" = Some (PyInt (ImageSliderBox.quality s)) ->
  ImageSliderBox.valid s -> ImageSliderBox.same_limits sl0 s ->
  ImageSliderBox.populate cfg sl0 = Done s.
Proof.
  intros Ew Eh Eq (Vw & Vh & Vq) (Lw & Lh & Lq).
  unfold ImageSliderBox.populate, ImageSliderBox.assign.
  rewrite Ew. cbn [as_int and_then]. rewrite Eh. cbn [as_int and_then].
  rewrite Eq. cbn [as_int].
  destruct s as [[wv wl] [hv hl] [qv ql]], sl0 as [[wv0 wl0] [hv0 hl0] [qv0 ql0]].
  unfold RichSlider.valid in *. cbn in *. subst.
  unfold ImageSliderBox.set_quality, ImageSliderBox.set_height,
    ImageSliderBox.set_width, RichSlider.set_value. cbn.
  by rewrite !clamp_valid.
Qed.

(** What an [accept] that went through has stored, the next dialog loads: a
    dialog with the same slider limits and no presets yet, opened on the
    configuration the accept left, gets the sliders and the presets of the
    accepted dialog. *)
Theorem accepted_settings_come_back w d0 tr :
  commit_blocked (dialog w) = false ->
  ImageSliderBox.valid (_sliders (dialog w)) ->
  ImageSliderBox.same_limits (_sliders d0) (_sliders (dialog w)) ->
  presets_editor d0 = [] ->
  exists w1,
    SettingsDialog_set_initial_values
      {| dialog := d0; config := config (state_of (accept w)); effects := tr |}
    = Done w1
    /\ _sliders (dialog w1) = _sliders (dialog w)
    /\ presets_editor (dialog w1) = presets_editor (dialog w).
Proof.
  intros Hb Hv Hl Hp.
  destruct (accept_goes_through w Hb) as (cfg' & -> & cfg1 & -> & _).
  cbn [state_of config].
  destruct (base_accept_lookups (dialog w) cfg1) as (Ew & Eh & Eq & Ep).
  unfold SettingsDialog_set_initial_values, seq, populate_sliders.
  cbn [dialog config].
  rewrite (populate_from_lookups _ _ _ Ew Eh Eq Hv Hl).
  cbn [and_then]. unfold add_items. cbn [config set_dialog dialog].
  rewrite Ep. eexists. split; [reflexivity|]. cbn. by rewrite Hp.
Qed.

(** A paste dialog accepted at 640 x 0, quality 20; a fresh dialog after it. *)
Lemma accepted_settings_come_back_witness :
  let d := with_sliders
             (construct 800 600 (PasteDialog {| width := 800; height := 600 |}))
             (panel 640 0 20 800 600) in
  let w := {| dialog := d; config := sample_config; effects := [] |} in
  exists w1,
    SettingsDialog_set_initial_values
      {| dialog := construct 800 600 (PasteDialog {| width := 30; height := 20 |});
         config := config (state_of (accept w)); effects := [] |}
    = Done w1
    /\ _sliders (dialog w1) = _sliders (dialog w)
    /\ presets_editor (dialog w1) = presets_editor (dialog w).
Proof.
  apply (accepted_settings_come_back
           {| dialog := with_sliders
                          (construct 800 600
                             (PasteDialog {| width := 800; height := 600 |}))
                          (panel 640 0 20 800 600);
              config := sample_config; effects := [] |}
           (construct 800 600 (PasteDialog {| width := 30; height := 20 |})) []).
  - reflexivity.
  - unfold ImageSliderBox.valid, RichSlider.valid. simpl. lia.
  - unfold ImageSliderBox.same_limits. simpl. tauto.
  - reflexivity.
Defined.

Lemma load_checkboxes_ok cfg : forall cbs cbs0,
  cbs0.*1 = cbs.*1 ->
  (forall k b, (k, b) ∈ cbs -> cfg !! k = Some (PyBool b)) ->
  load_checkboxes cfg cbs0 = (cbs, None).
Proof.
  induction cbs as [|[k b] cbs IH]; intros [|[k0 b0] cbs0] Hk Hc;
    try discriminate; [done|].
  cbn in Hk. injection Hk as -> Hk. cbn [load_checkboxes].
  rewrite (Hc k b) by left. cbn [as_bool].
  rewrite (IH cbs0 Hk); [done|]. intros k' b' Hin. apply Hc. by right.
Qed.

(** The checkboxes of the settings menu come back too: when their keys are
    distinct and none is a key of the base class, loading checkboxes with
    the same keys from the configuration an [accept] left gives the accepted
    states and raises nothing. *)
Theorem accepted_checkboxes_come_back w show pattern cbs cbs0 :
  kind (dialog w) = SettingsMenuDialog show pattern cbs ->
  NoDup cbs.*1 ->
  (forall k, k ∈ cbs.*1 -> k ∉ base_keys) ->
  cbs0.*1 = cbs.*1 ->
  load_checkboxes (config (state_of (accept w))) cbs0 = (cbs, None).
Proof.
  intros Hk Hnd Hbase Hkeys.
  destruct (accept_goes_through w) as (cfg' & -> & cfg1 & -> & ->).
  { unfold commit_blocked. by rewrite Hk. }
  rewrite Hk. cbn [state_of config].
  apply load_checkboxes_ok; [done|]. intros k b Hin.
  assert (Hkin : k ∈ cbs.*1) by (apply list_elem_of_fmap; by exists (k, b)).
  specialize (Hbase k Hkin). unfold base_keys in Hbase.
  rewrite !not_elem_of_cons in Hbase. destruct Hbase as (? & ? & ? & ? & _).
  rewrite lookup_insert_ne by done.
  rewrite lookup_union_r by (by apply as_dict_lookup_other).
  by apply store_checkboxes_lookup.
Qed.

(** The four checkboxes of the settings menu, loaded again after an accept. *)
Lemma accepted_checkboxes_come_back_witness :
  let cbs := [("drag_and_drop", true); ("copy_paste", false);
              ("avoid_upscaling", true); ("preserve_original_filenames", false)] in
  let cbs0 := [("drag_and_drop", false); ("copy_paste", false);
               ("avoid_upscaling", false); ("preserve_original_filenames", false)] in
  let w := sample_world (SettingsMenuDialog (ComboBox.Build [] (-1))
                           (ComboBox.Build [] (-1)) cbs) in
  load_checkboxes (config (state_of (accept w))) cbs0 = (cbs, None).
Proof.
  apply (accepted_checkboxes_come_back
           (sample_world
              (SettingsMenuDialog (ComboBox.Build [] (-1)) (ComboBox.Build [] (-1))
                 [("drag_and_drop", true); ("copy_paste", false);
                  ("avoid_upscaling", true); ("preserve_original_filenames", false)]))
           (ComboBox.Build [] (-1)) (ComboBox.Build [] (-1))).
  - reflexivity.
  - simpl. repeat (apply NoDup_cons; split;
      [rewrite ?not_elem_of_cons; repeat split; try discriminate; apply not_elem_of_nil|]).
    apply NoDup_nil_2.
  - simpl. intros k Hk. unfold base_keys.
    repeat (apply elem_of_cons in Hk as [->|Hk];
      [rewrite !not_elem_of_cons; repeat split; try discriminate; apply not_elem_of_nil|]).
    by apply elem_of_nil in Hk.
  - reflexivity.
Defined.

(** ** Loading checkboxes from a configuration that lacks one *)

(** [config[key]] on a key the configuration does not have: the loop stops
    there with [KeyError] of that key; the checkboxes before it have been
    set from the configuration, this one and those after it are as they
    were. *)
Theorem load_checkboxes_missing_key cfg : forall pre k b post,
  Forall (fun kb => is_Some (as_bool (cfg !! kb.1))) pre ->
  cfg !! k = None ->
  exists pre',
    load_checkboxes cfg (pre ++ (k, b) :: post)
    = (pre' ++ (k, b) :: post, Some (KeyError k))
    /\ pre'.*1 = pre.*1
    /\ Forall (fun kb => as_bool (cfg !! kb.1) = Some kb.2) pre'.
Proof.
  induction pre as [|[k0 b0] pre IH]; intros k b post Hpre Hk.
  - exists []. cbn. rewrite Hk. by repeat split.
  - inversion Hpre as [|? ? [v Hv] Hrest]; subst. cbn in Hv.
    destruct (cfg !! k0) as [x|] eqn:Hx; [|discriminate].
    destruct (IH k b post Hrest Hk) as (pre' & E & Hkeys & Hvals).
    exists ((k0, v) :: pre'). cbn [app load_checkboxes].
    rewrite Hx, Hv, E.
    split; [done|]. split; [cbn; by rewrite Hkeys|].
    constructor; [cbn; by rewrite Hx | done].
Qed.

(** Four checkboxes and a configuration without the third key. *)
Lemma load_checkboxes_missing_key_witness :
  let cfg : gmap string pyval :=
    <["drag_and_drop" := PyBool true]> (<["copy_paste" := PyBool true]> ∅) in
  exists pre',
    load_checkboxes cfg
      ([("drag_and_drop", false); ("copy_paste", false)]
       ++ ("avoid_upscaling", false) :: [("preserve_original_filenames", false)])
    = (pre' ++ ("avoid_upscaling", false) :: [("preserve_original_filenames", false)],
       Some (KeyError "avoid_upscaling"))
    /\ pre'.*1 = ["drag_and_drop"; "copy_paste"]
    /\ Forall (fun kb => as_bool (cfg !! kb.1) = Some kb.2) pre'.
Proof.
  apply (load_checkboxes_missing_key
           (<["drag_and_drop" := PyBool true]> (<["copy_paste" := PyBool true]> ∅))
           [("drag_and_drop", false); ("copy_paste", false)]
           "avoid_upscaling" false [("preserve_original_filenames", false)]).
  - repeat constructor; by eexists.
  - reflexivity.
Defined.

(** ** A configuration without the slider keys *)

Lemma populate_type_error cfg b :
  as_int (cfg !! "image_width") = None
  \/ as_int (cfg !! "image_height") = None
  \/ as_int (cfg !! "image_quality") = None ->
  raised (ImageSliderBox.populate cfg b) = Some TypeError.
Proof.
  intros H. unfold ImageSliderBox.populate. rewrite !assign_state.
  destruct (as_int (cfg !! "image_width")); cbn [and_then]; [|done].
  rewrite assign_state.
  destruct (as_int (cfg !! "image_height")); cbn [and_then]; [|done].
  rewrite assign_state.
  destruct (as_int (cfg !! "image_quality")); [|done].
  by destruct H as [?|[?|?]].
Qed.

Lemma base_set_initial_values_type_error w :
  as_int (config w !! "image_width") = None
  \/ as_int (config w !! "image_height") = None
  \/ as_int (config w !! "image_quality") = None ->
  raised (SettingsDialog_set_initial_values w) = Some TypeError.
Proof.
  intros H. unfold SettingsDialog_set_initial_values, seq, populate_sliders.
  pose proof (populate_type_error (config w) (_sliders (dialog w)) H) as Hr.
  by destruct (ImageSliderBox.populate (config w) (_sliders (dialog w))).
Qed.

Lemma set_initial_values_type_error index_of w :
  as_int (config w !! "image_width") = None
  \/ as_int (config w !! "image_height") = None
  \/ as_int (config w !! "image_quality") = None ->
  raised (set_initial_values index_of w) = Some TypeError.
Proof.
  intros H. unfold set_initial_values.
  destruct (kind (dialog w)) as [fs rc notes|image|show pattern cbs].
  - destruct (as_bool (config w !! "bulk_reconvert_webp")); [|done].
    by apply base_set_initial_values_type_error.
  - by apply base_set_initial_values_type_error.
  - unfold seq. pose proof (base_set_initial_values_type_error w H) as Hr.
    by destruct (SettingsDialog_set_initial_values w).
Qed.

(** What [setup_ui] raises is what [set_initial_values] raises, called on
    the configuration [setup_ui] was called on. *)
Lemma setup_ui_raised index_of w :
  exists w3,
    config w3 = config w
    /\ raised (setup_ui index_of w) = raised (set_initial_values index_of w3).
Proof.
  unfold setup_ui, seq, emit, create_main_layout, setup_logic, on_dialog.
  cbn [and_then dialog config effects].
  match goal with |- context [populate_main_vbox ?w1] =>
    destruct (inner_populate_main_vbox w1) as (d2 & E2 & _ & _);
    rewrite (done_state_of _ (populate_main_vbox_done w1)), E2
  end.
  cbn [and_then dialog config effects set_dialog].
  match goal with |- context [set_initial_values index_of ?w3] =>
    exists w3; split; [done|]; by destruct (set_initial_values index_of w3)
  end.
Qed.

(** Whichever the dialog and whatever the user would do: when one of the
    three slider keys is missing from the configuration, or holds something
    that is not a number, [exec] raises [TypeError] in the load phase, the
    dialog is never shown and the configuration stays as it was. *)
Theorem exec_needs_slider_keys index_of evs w :
  as_int (config w !! "image_width") = None
  \/ as_int (config w !! "image_height") = None
  \/ as_int (config w !! "image_quality") = None ->
  let o := exec index_of evs w in
  raised o = Some TypeError
  /\ config (state_of o) = config w
  /\ effects (state_of o) = effects w ++ setup_marks_load_raised.
Proof.
  intros H o. subst o.
  destruct (setup_ui_raised index_of w) as (w3 & Hc & Hr).
  rewrite <- Hc in H.
  rewrite (set_initial_values_type_error index_of w3 H) in Hr.
  destruct (setup_ui_spec index_of w) as (d' & [(E & _) | (e & E)]).
  - rewrite E in Hr. discriminate.
  - rewrite E in Hr. cbn in Hr. simplify_eq.
    unfold exec, seq. rewrite E. by cbn.
Qed.

(** A paste dialog over an empty configuration. *)
Lemma exec_needs_slider_keys_witness :
  let w := {| dialog := construct 800 600 (PasteDialog {| width := 800; height := 600 |});
              config := ∅; effects := [] |} in
  let o := exec (fun _ => 0) [OkClicked] w in
  raised o = Some TypeError
  /\ config (state_of o) = config w
  /\ effects (state_of o) = effects w ++ setup_marks_load_raised.
Proof.
  apply (exec_needs_slider_keys (fun _ => 0) [OkClicked]
           {| dialog := construct 800 600
                          (PasteDialog {| width := 800; height := 600 |});
              config := ∅; effects := [] |}).
  left. reflexivity.
Defined.

(** ** One write to the store, when the dialog is accepted *)

Lemma dispatch_ok w :
  dispatch OkClicked w
  = if accepted_connected (dialog w) then
      if commit_blocked (dialog w) then
        {| dialog := dialog w; config := config w;
           effects := effects w ++ [Commit; no_fields_message] |}
      else state_of (accept w)
    else w.
Proof.
  unfold dispatch, handle.
  destruct (kind (dialog w)) eqn:Hk;
    (destruct (accepted_connected (dialog w)); [|done]);
    (destruct (commit_blocked (dialog w)) eqn:Hb;
     [by rewrite (accept_blocked w Hb)
     |by destruct (accept_goes_through w Hb) as (cfg' & -> & _)]).
Qed.

(** From an open dialog the event loop ends in one of two ways: accepted,
    and then the store has received one more map, the final configuration;
    or not accepted, and then neither the configuration nor the store has
    changed. *)
Lemma event_loop_writes evs : forall w,
  result (dialog w) = Running ->
  (result (dialog (event_loop evs w)) = Accepted
   /\ writes (effects (event_loop evs w))
      = writes (effects w) ++ [config (event_loop evs w)])
  \/ (result (dialog (event_loop evs w)) <> Accepted
      /\ config (event_loop evs w) = config w
      /\ writes (effects (event_loop evs w)) = writes (effects w)).
Proof.
  induction evs as [|ev evs IH]; intros w Hrun; cbn [event_loop]; rewrite Hrun.
  - right. by rewrite Hrun.
  - destruct (is_ok_click ev) eqn:Hok.
    + destruct ev; try discriminate. rewrite dispatch_ok.
      destruct (accepted_connected (dialog w)); [|by apply IH].
      destruct (commit_blocked (dialog w)) eqn:Hb.
      * match goal with |- context [event_loop evs ?w1] =>
          destruct (IH w1 Hrun) as [[Ha Hw]|(Hn & Hc & Hw)]
        end; cbn [config effects] in *; [left|right].
        -- split; [done|]. rewrite Hw. unfold writes.
           rewrite omap_app. cbn. by rewrite app_nil_r.
        -- repeat split; [done..|]. rewrite Hw. unfold writes.
           rewrite omap_app. cbn. by rewrite app_nil_r.
      * destruct (accept_goes_through w Hb) as (cfg' & -> & _).
        cbn [state_of]. left. destruct evs; cbn; (split; [done|]);
          unfold writes; by rewrite omap_app.
    + destruct (dispatch_frame ev w Hok) as [Hc Hw].
      destruct (dispatch_keeps ev w Hok) as [_ [Hres|Hres]].
      * rewrite Hrun in Hres.
        destruct (IH (dispatch ev w) Hres) as [[Ha Hw']|(Hn & Hc' & Hw')];
          [left|right]; repeat split; congruence.
      * right. destruct evs; cbn; rewrite Hres; repeat split; congruence.
Qed.

(** Whichever the dialog and whatever the user does, one [exec] writes to
    the store at most once: if it ends with the dialog accepted, the store
    has received exactly one map more, and it is the configuration as
    [exec] leaves it; in every other case, a raise in the set-up included,
    the configuration and the store are as they were. *)
Theorem exec_writes_once_iff_accepted index_of evs w :
  let o := exec index_of evs w in
  (raised o = None /\ result (dialog (state_of o)) = Accepted
   /\ writes (effects (state_of o))
      = writes (effects w) ++ [config (state_of o)])
  \/ ((raised o <> None \/ result (dialog (state_of o)) <> Accepted)
      /\ config (state_of o) = config w
      /\ writes (effects (state_of o)) = writes (effects w)).
Proof.
  intros o. subst o.
  destruct (setup_ui_spec index_of w) as (d' & [(E & _) | (e & E)]).
  - rewrite (exec_after_setup _ _ _ _ E). cbn [state_of raised].
    match goal with |- context [event_loop _ ?w1] =>
      destruct (event_loop_writes evs w1 eq_refl) as [[Ha Hw]|(Hn & Hc & Hw)]
    end; cbn [config effects] in *; rewrite writes_marks in Hw.
    + left. by repeat split.
    + right. repeat split; auto.
  - right. unfold exec, seq. rewrite E. cbn.
    rewrite writes_marks_load_raised. repeat split; auto.
Qed.

(** ** The grid of the scale buttons *)

(** At or past [2 ^ 53] rounding to 53 bits gives the multiple of the gap
    below the number, or the next one when the number is in the upper half of
    the gap. *)
Lemma round53_floor_or_next (y : Z) :
  2 ^ 53 <= y ->
  let s := Z.log2 y - 52 in
  let q := y / 2 ^ s in
  round53 y = q * 2 ^ s
  \/ (round53 y = (q + 1) * 2 ^ s /\ 2 ^ (s - 1) <= y - q * 2 ^ s).
Proof.
  intros Hy s q. unfold round53.
  assert (H53 : 0 < 2 ^ 53) by (apply Z.pow_pos_nonneg; lia).
  rewrite (Z.abs_eq y) by lia.
  destruct (Z.ltb_spec y (2 ^ 53)) as [Hlt|_]; [lia|].
  assert (Hlog : 53 <= Z.log2 y) by (apply Z.log2_le_pow2; lia).
  fold s. assert (Hs : 0 < s) by (unfold s; lia).
  rewrite Z.shiftr_div_pow2 by lia. fold q.
  rewrite !Z.shiftl_mul_pow2 by lia. rewrite Z.mul_1_l.
  assert (Hsgn : Z.sgn y = 1) by lia. rewrite Hsgn, Z.mul_1_l.
  destruct (Z.ltb_spec (y - q * 2 ^ s) (2 ^ (s - 1))); [by left|].
  destruct (Z.ltb_spec (2 ^ (s - 1)) (y - q * 2 ^ s)); [by right|].
  destruct (Z.even q); [by left | by right].
Qed.

Lemma pow2_pos (n : Z) : 0 <= n -> 0 < 2 ^ n.
Proof. intros. apply Z.pow_pos_nonneg; lia. Qed.

Lemma pow2_split (n m : Z) : 0 <= n -> 0 <= m -> 2 ^ (n + m) = 2 ^ n * 2 ^ m.
Proof. intros. by rewrite Z.pow_add_r. Qed.

(** Floor division, as two inequalities. *)
Lemma div_bounds (a b : Z) : 0 < b -> (a / b) * b <= a < (a / b + 1) * b.
Proof.
  intros Hb. split.
  - rewrite Z.mul_comm. apply Z.mul_div_le. lia.
  - rewrite Z.mul_comm. apply Z.mul_succ_div_gt. lia.
Qed.

Lemma div_between (a b k : Z) : 0 < b -> k * b <= a < (k + 1) * b -> a / b = k.
Proof.
  intros Hb [H1 H2]. symmetry. apply (Z.div_unique a b k (a - k * b)); lia.
Qed.

Lemma scaled_quotient_bounds (a b k T : Z) :
  0 < b -> 0 < T -> k * b <= a < (k + 1) * b ->
  k * T <= a * T / b < (k + 1) * T.
Proof.
  intros Hb HT [H1 H2]. split.
  - apply Z.div_le_lower_bound; [lia|]. nia.
  - apply Z.div_lt_upper_bound; [lia|]. nia.
Qed.

Lemma multiple_below (c E P y : Z) : 0 < P -> c * (E * P) <= y -> c * E <= y / P.
Proof. intros HP H. apply Z.div_le_lower_bound; [lia|]. nia. Qed.

Lemma multiple_above (c E P y : Z) :
  0 < P -> y < c * (E * P) -> y / P + 1 <= c * E.
Proof.
  intros HP H. assert (y / P < c * E); [|lia].
  apply Z.div_lt_upper_bound; [lia|]. nia.
Qed.

(** The quotient cannot lie in the upper half of the last gap below a whole
    number. *)
Lemma no_round_up (a b k T qf h M : Z) :
  0 < b -> 0 < T -> 0 < h -> 0 < M -> 4 * b < T -> 2 * a <= M - 2 ->
  a < (k + 1) * b -> qf * b <= a * T -> (k + 1) * T - h <= qf ->
  M * h <= 2 * qf + 1 -> False.
Proof.
  intros Hb HT Hh HM HTb Ha Hk Hq Hlow Hexp.
  assert (E1 : ((k + 1) * T - h) * b <= qf * b)
    by (apply Z.mul_le_mono_nonneg_r; lia).
  assert (E2 : a * T <= ((k + 1) * b - 1) * T)
    by (apply Z.mul_le_mono_nonneg_r; lia).
  assert (E3 : T <= h * b) by nia.
  assert (E4 : M * h * b <= (2 * qf + 1) * b)
    by (apply Z.mul_le_mono_nonneg_r; lia).
  assert (E5 : M * T <= M * (h * b)) by (apply Z.mul_le_mono_nonneg_l; lia).
  assert (E6 : 2 * a * T <= (M - 2) * T) by (apply Z.mul_le_mono_nonneg_r; lia).
  nia.
Qed.

(** Rounding to 53 bits keeps a number between two neighbouring multiples of
    [D = E * 2 ^ s] when [s] is its own exponent less 52 and it is not in the
    upper half of the last gap. *)
Lemma round53_between (y k E : Z) :
  2 ^ 53 <= y ->
  let s := Z.log2 y - 52 in
  0 < E ->
  k * (E * 2 ^ s) <= y < (k + 1) * (E * 2 ^ s) ->
  (y / 2 ^ s + 1 = (k + 1) * E -> y - y / 2 ^ s * 2 ^ s < 2 ^ (s - 1)) ->
  k * (E * 2 ^ s) <= round53 y < (k + 1) * (E * 2 ^ s).
Proof.
  intros Hy s HE [H1 H2] Hup.
  assert (Hlog : 53 <= Z.log2 y) by (apply Z.log2_le_pow2; [pose proof (pow2_pos 53)|]; lia).
  assert (HP : 0 < 2 ^ s) by (apply pow2_pos; unfold s; lia).
  pose proof (multiple_below k E (2 ^ s) y HP H1) as Hlo.
  pose proof (multiple_above (k + 1) E (2 ^ s) y HP H2) as Hhi.
  destruct (round53_floor_or_next y Hy) as [HR|[HR Hhalf]]; fold s in HR; rewrite HR.
  - clear - HP HE Hlo Hhi. set (q := y / 2 ^ s) in *. set (P := 2 ^ s) in *.
    clearbody q P. split; nia.
  - fold s in Hhalf.
    assert (Hne : y / 2 ^ s + 1 <> (k + 1) * E) by (intros Heq; specialize (Hup Heq); lia).
    clear - HP HE Hlo Hhi Hne. set (q := y / 2 ^ s) in *. set (P := 2 ^ s) in *.
    clearbody q P. split; nia.
Qed.

(** Below [2 ^ 53] the true division of a non-negative int by a positive one,
    cut off by [int], is the floor division. *)
Lemma int_truediv_small (a b : Z) :
  0 <= a < 2 ^ 53 -> 0 < b -> int_truediv a b = Some (a / b).
Proof.
  intros [Ha0 Ha] Hb. unfold int_truediv.
  destruct (Z.eqb_spec b 0) as [|_]; [lia|].
  destruct (Z.eqb_spec a 0) as [->|Hane]; [by rewrite Z.div_0_l by lia|].
  assert (Hapos : 0 < a) by lia.
  rewrite (Z.abs_eq a), (Z.abs_eq b) by lia.
  assert (Hsa : Z.sgn a = 1) by lia. assert (Hsb : Z.sgn b = 1) by lia.
  rewrite Hsa, Hsb, !Z.mul_1_l.
  set (la := Z.log2 a). set (lb := Z.log2 b).
  destruct (Z.log2_spec a Hapos) as [Hla1 Hla2]. fold la in Hla1, Hla2.
  destruct (Z.log2_spec b Hb) as [Hlb1 Hlb2]. fold lb in Hlb1, Hlb2.
  unfold Z.succ in Hla2, Hlb2.
  assert (Hla0 : 0 <= la) by apply Z.log2_nonneg.
  assert (Hlb0 : 0 <= lb) by apply Z.log2_nonneg.
  assert (Hla52 : la <= 52).
  { assert (la < 53); [|lia]. apply Z.log2_lt_pow2; lia. }
  set (t := Z.max 0 (55 + lb - la)).
  assert (Ht0 : 0 <= t) by (unfold t; lia).
  assert (Ht1 : lb + 3 <= t) by (unfold t; lia).
  assert (Ht2 : 55 + lb <= la + t) by (unfold t; lia).
  rewrite Z.shiftl_mul_pow2 by lia.
  set (T := 2 ^ t). assert (HT : 0 < T) by (apply pow2_pos; lia).
  assert (HTb : 4 * b < T).
  { assert (2 ^ (lb + 3) <= T) by (apply Z.pow_le_mono_r; lia).
    rewrite (Z.add_comm lb 3), pow2_split in H by lia.
    rewrite pow2_split in Hlb2 by lia. change (2 ^ 3) with 8 in H.
    change (2 ^ 1) with 2 in Hlb2. lia. }
  set (k := a / b).
  pose proof (div_bounds a b Hb) as Hk. fold k in Hk.
  assert (Hk0 : 0 <= k) by (apply Z.div_pos; lia).
  assert (Hka : k <= a).
  { unfold k. apply Z.div_le_upper_bound; [lia|]. clear - Hapos Hb. nia. }
  pose proof (scaled_quotient_bounds a b k T Hb HT Hk) as Hq.
  pose proof (div_bounds (a * T) b Hb) as Hqb.
  set (qf := a * T / b) in *.
  set (st := if (a * T) mod b =? 0 then 0 else 1).
  assert (Hst : 0 <= st <= 1) by (unfold st; destruct (_ =? 0); lia).
  set (y := 2 * qf + st).
  assert (Hq54 : 2 ^ 54 <= qf).
  { unfold qf. apply Z.div_le_lower_bound; [lia|].
    assert (H1 : 2 ^ (55 + lb) <= 2 ^ (la + t)) by (apply Z.pow_le_mono_r; lia).
    assert (H2 : 2 ^ (la + t) <= a * T).
    { unfold T. rewrite pow2_split by lia. apply Z.mul_le_mono_nonneg_r; lia. }
    replace (55 + lb) with (54 + (lb + 1)) in H1 by lia.
    rewrite pow2_split in H1 by lia.
    assert (H3 : b * 2 ^ 54 <= 2 ^ 54 * 2 ^ (lb + 1)).
    { rewrite (Z.mul_comm b). apply Z.mul_le_mono_nonneg_l; [|lia].
      pose proof (pow2_pos 54). lia. }
    lia. }
  assert (Hy55 : 2 ^ 55 <= y).
  { unfold y. change (2 ^ 55) with (2 * 2 ^ 54). lia. }
  assert (Hy53 : 2 ^ 53 <= y).
  { assert (2 ^ 53 <= 2 ^ 55) by (apply Z.pow_le_mono_r; lia). lia. }
  assert (Hypos : 0 < y) by (pose proof (pow2_pos 53); lia).
  set (D := 2 ^ (t + 1)).
  assert (HD : D = 2 * T).
  { unfold D, T. rewrite pow2_split by lia. change (2 ^ 1) with 2. lia. }
  assert (Hy1 : k * D <= y) by (rewrite HD; unfold y; lia).
  assert (Hy2 : y < (k + 1) * D) by (rewrite HD; unfold y; lia).
  destruct (Z.log2_spec y Hypos) as [Hly1 Hly2]. unfold Z.succ in Hly2.
  assert (Hly55 : 55 <= Z.log2 y) by (apply Z.log2_le_pow2; lia).
  assert (Hly : Z.log2 y < t + 54).
  { apply Z.log2_lt_pow2; [lia|].
    assert (E : 2 ^ (t + 54) = 2 ^ 53 * D).
    { unfold D. rewrite <- pow2_split by lia. f_equal. lia. }
    assert ((k + 1) * D <= 2 ^ 53 * D)
      by (apply Z.mul_le_mono_nonneg_r; lia).
    lia. }
  set (s := Z.log2 y - 52).
  assert (Hs3 : 3 <= s) by (unfold s; lia).
  assert (Hst1 : s <= t + 1) by (unfold s; lia).
  set (E := 2 ^ (t + 1 - s)).
  assert (HE : 0 < E) by (apply pow2_pos; lia).
  assert (HDE : D = E * 2 ^ s).
  { unfold D, E. rewrite <- pow2_split by lia. f_equal. lia. }
  assert (HR : k * D <= round53 y < (k + 1) * D).
  { rewrite HDE. apply (round53_between y k E Hy53 HE); fold s.
    { rewrite <- HDE. lia. }
    intros Heq.
    destruct (Z.lt_ge_cases (y - y / 2 ^ s * 2 ^ s) (2 ^ (s - 1))) as [|Hhalf];
      [done|exfalso].
    set (h := 2 ^ (s - 2)).
    assert (Hh : 0 < h) by (apply pow2_pos; lia).
    assert (HPh : 2 ^ s = 4 * h).
    { unfold h. replace s with (2 + (s - 2)) at 1 by lia.
      rewrite pow2_split by lia. change (2 ^ 2) with 4. lia. }
    assert (Hhh : 2 ^ (s - 1) = 2 * h).
    { unfold h. replace (s - 1) with (1 + (s - 2)) by lia.
      rewrite pow2_split by lia. change (2 ^ 1) with 2. lia. }
    assert (Hq1P : (y / 2 ^ s + 1) * 2 ^ s = (k + 1) * D).
    { rewrite Heq, HDE. ring. }
    assert (Hylow : (k + 1) * D - 2 * h <= y) by lia.
    assert (Hqf : (k + 1) * T - h <= qf).
    { rewrite HD in Hylow. unfold y in Hylow.
      replace ((k + 1) * (2 * T)) with (2 * ((k + 1) * T)) in Hylow by ring. lia. }
    assert (Hexp : 2 ^ Z.log2 y = 2 ^ 54 * h).
    { unfold h. rewrite <- pow2_split by lia. f_equal. unfold s. lia. }
    assert (H54 : 0 < 2 ^ 54) by (apply pow2_pos; lia).
    assert (Ha54 : 2 * a <= 2 ^ 54 - 2).
    { change (2 ^ 54) with (2 * 2 ^ 53). lia. }
    apply (no_round_up a b k T qf h (2 ^ 54)); lia. }
  fold D.
  assert (Hbig : 2 ^ 53 < 2 ^ 1024) by (apply Z.pow_lt_mono_r; lia).
  assert (HDpos : 0 < D) by lia.
  assert (Hno : round53 y < 2 ^ 1024 * D).
  { assert ((k + 1) * D <= 2 ^ 53 * D) by (apply Z.mul_le_mono_nonneg_r; lia).
    assert (2 ^ 53 * D < 2 ^ 1024 * D) by (apply Z.mul_lt_mono_pos_r; lia).
    lia. }
  destruct (Z.leb_spec (2 ^ 1024 * D) (round53 y)); [lia|].
  f_equal. by apply div_between.
Qed.

Lemma grid_cell_small (index columns : Z) :
  0 <= index < 2 ^ 53 -> 0 < columns ->
  grid_cell index columns = Some (index / columns, index mod columns).
Proof.
  intros Hi Hc. unfold grid_cell. rewrite int_truediv_small by done.
  do 2 f_equal. rewrite Z.mod_eq by lia. ring.
Qed.

Lemma place_buttons_spec (columns : Z) (fs : list Factor) : forall index,
  0 < columns -> 0 <= index -> index + Z.of_nat (length fs) <= 2 ^ 53 ->
  exists placed,
    place_buttons columns index fs = Some placed
    /\ length placed = length fs
    /\ forall n f, fs !! n = Some f ->
         placed !! n = Some ((index + Z.of_nat n) / columns,
                             (index + Z.of_nat n) mod columns, f).
Proof.
  induction fs as [|f fs IH]; intros index Hc Hi Hlen.
  - exists []. by repeat split.
  - cbn [length] in Hlen. cbn [place_buttons].
    rewrite grid_cell_small by lia.
    destruct (IH (index + 1) Hc ltac:(lia) ltac:(lia)) as (placed & -> & Hl & Hn).
    eexists. split; [reflexivity|]. split; [cbn; by rewrite Hl|].
    intros [|n] g Hg.
    + cbn in Hg. simplify_eq. cbn [Z.of_nat]. by rewrite Z.add_0_r.
    + change (fs !! n = Some g) in Hg.
      change (placed !! n
              = Some ((index + Z.of_nat (S n)) / columns,
                      (index + Z.of_nat (S n)) mod columns, g)).
      replace (index + Z.of_nat (S n)) with (index + 1 + Z.of_nat n) by lia.
      by apply Hn.
Qed.

Lemma cell_injective (columns n m : Z) :
  0 < columns -> n / columns = m / columns -> n mod columns = m mod columns ->
  n = m.
Proof.
  intros Hc Hd Hm.
  rewrite (Z.div_mod n columns), (Z.div_mod m columns) by lia. by rewrite Hd, Hm.
Qed.

(** The buttons of the scale grid, for any tuple of factors and any number of
    columns: the button with index [n] is the one for the [n]-th factor and
    sits in row [n // columns], column [n % columns], so the grid is filled
    row by row, each row has [columns] cells at most, and no two buttons
    share a cell.  For the six factors and three columns of the dialog that
    is two full rows. *)
Theorem scale_grid_row_major (columns : Z) (fs : list Factor) :
  0 < columns -> Z.of_nat (length fs) <= 2 ^ 53 ->
  exists placed,
    place_buttons columns 0 fs = Some placed
    /\ length placed = length fs
    /\ (forall n f, fs !! n = Some f ->
          placed !! n = Some (Z.of_nat n / columns, Z.of_nat n mod columns, f))
    /\ (forall n i j f, placed !! n = Some (i, j, f) -> 0 <= j < columns)
    /\ NoDup placed.*1.
Proof.
  intros Hc Hlen.
  destruct (place_buttons_spec columns fs 0 Hc ltac:(lia) ltac:(lia))
    as (placed & E & Hl & Hn).
  exists placed. split; [done|]. split; [done|].
  assert (Hn' : forall n f, fs !! n = Some f ->
            placed !! n = Some (Z.of_nat n / columns, Z.of_nat n mod columns, f)).
  { intros n f Hf. by rewrite (Hn n f Hf). }
  assert (Hat : forall n c, placed !! n = Some c ->
            exists f, c = (Z.of_nat n / columns, Z.of_nat n mod columns, f)).
  { intros n c Hp. assert (Hlt : (n < length fs)%nat).
    { rewrite <- Hl. by apply lookup_lt_Some in Hp. }
    destruct (lookup_lt_is_Some_2 fs n Hlt) as [f Hf].
    exists f. rewrite (Hn' n f Hf) in Hp. by simplify_eq. }
  split; [done|]. split.
  - intros n i j f Hp. destruct (Hat n _ Hp) as (g & Hg). simplify_eq.
    apply Z.mod_pos_bound. lia.
  - apply NoDup_alt. intros n m c Hn1 Hm1.
    rewrite list_lookup_fmap in Hn1, Hm1.
    destruct (placed !! n) as [cn|] eqn:En; [|done].
    destruct (placed !! m) as [cm|] eqn:Em; [|done].
    destruct (Hat n _ En) as (f & ->). destruct (Hat m _ Em) as (g & ->).
    cbn in Hn1, Hm1. simplify_eq.
    apply Nat2Z.inj. by apply (cell_injective columns).
Qed.

(** The six factors of the dialog in three columns. *)
Lemma scale_grid_row_major_witness :
  exists placed,
    create_scale_options_grid = Some placed
    /\ length placed = length factors
    /\ (forall n f, factors !! n = Some f ->
          placed !! n = Some (Z.of_nat n / 3, Z.of_nat n mod 3, f))
    /\ (forall n i j f, placed !! n = Some (i, j, f) -> 0 <= j < 3)
    /\ NoDup placed.*1.
Proof.
  apply (scale_grid_row_major 3 factors).
  - lia.
  - apply Z.leb_le. vm_compute. reflexivity.
Defined.

(** ** More on get_all_keys *)

#[global] Instance str_le_antisymm : AntiSymm (=) str_le.
Proof.
  intros x y. rewrite !str_le_iff. intros [Hxy | ->] [Hyx | Heq]; try done.
  exfalso. apply (StrictOrder_Irreflexive x).
  by apply (str_lt_trans x y x).
Qed.

(** The result is the one ascending list without repetitions of the field
    names of the notes.  So it depends on nothing but which names occur:
    notes in another order, the same note twice, notes of the same type with
    other contents give the same list. *)
Theorem get_all_keys_canonical (notes : list Note) :
  (forall l : list string,
      StronglySorted str_le l -> NoDup l ->
      (forall k, k ∈ l <-> exists note, note ∈ notes /\ k ∈ keys note) ->
      get_all_keys notes = l)
  /\ (forall notes',
         (forall k, (exists note, note ∈ notes /\ k ∈ keys note)
                    <-> (exists note, note ∈ notes' /\ k ∈ keys note)) ->
         get_all_keys notes = get_all_keys notes').
Proof.
  assert (Hmem : forall ns k, k ∈ get_all_keys ns
                   <-> exists note, note ∈ ns /\ k ∈ keys note).
  { intros ns k. unfold get_all_keys, sorted.
    rewrite merge_sort_Permutation, elem_of_elements, elem_of_list_to_set.
    apply elem_of_concat_keys. }
  assert (Hsort : forall ns, StronglySorted str_le (get_all_keys ns)).
  { intros ns. unfold get_all_keys, sorted.
    apply StronglySorted_merge_sort; apply _. }
  assert (Hnd : forall ns, NoDup (get_all_keys ns)).
  { intros ns. unfold get_all_keys, sorted.
    rewrite merge_sort_Permutation. apply NoDup_elements. }
  assert (Huniq : forall l : list string,
            StronglySorted str_le l -> NoDup l ->
            (forall k, k ∈ l <-> exists note, note ∈ notes /\ k ∈ keys note) ->
            get_all_keys notes = l).
  { intros l Hs Hn Hl. apply (StronglySorted_unique str_le); [done..| ].
    apply NoDup_Permutation; [done..|]. intros k. by rewrite Hmem, Hl. }
  split; [exact Huniq|].
  intros notes' Hsame. apply Huniq; [done..|].
  intros k. by rewrite Hmem, Hsame.
Qed.

(** Two notes of one type, and the same two the other way round. *)
Lemma get_all_keys_canonical_witness :
  let n1 := {| note_items := [("Front", "a"); ("Back", "b")] |} in
  let n2 := {| note_items := [("Front", "c"); ("Back", "")] |} in
  get_all_keys [n1; n2] = get_all_keys [n2; n1; n1].
Proof.
  apply (proj2 (get_all_keys_canonical
                  [ {| note_items := [("Front", "a"); ("Back", "b")] |};
                    {| note_items := [("Front", "c"); ("Back", "")] |} ])).
  intros k. split; intros (n & Hn & Hk); vm_compute in Hk.
  - exists {| note_items := [("Front", "a"); ("Back", "b")] |}.
    split; [by repeat constructor|].
    rewrite !elem_of_cons in Hn.
    destruct Hn as [->|[->|Hn]]; [done..|by apply elem_of_nil in Hn].
  - exists {| note_items := [("Front", "a"); ("Back", "b")] |}.
    split; [by repeat constructor|].
    rewrite !elem_of_cons in Hn.
    destruct Hn as [->|[->|[->|Hn]]]; [done..|by apply elem_of_nil in Hn].
Defined.

(** ** The last press wins *)

(** The scale buttons are absolute: after a press that completed and turned
    no dimension that was set into zero, a second press that completes leaves
    the panel exactly as it would have left it without the first. *)
Theorem last_press_wins image sl f g :
  raised (adjust_sliders image sl f) = None ->
  raised (adjust_sliders image sl g) = None ->
  (0 < ImageSliderBox.width sl ->
   0 < ImageSliderBox.width (state_of (adjust_sliders image sl f))) ->
  (0 < ImageSliderBox.height sl ->
   0 < ImageSliderBox.height (state_of (adjust_sliders image sl f))) ->
  adjust_sliders image (state_of (adjust_sliders image sl f)) g
  = adjust_sliders image sl g.
Proof.
  destruct sl as [[wv wl] [hv hl] [qv ql]].
  unfold adjust_sliders, adjust_width, adjust_height,
    ImageSliderBox.width, ImageSliderBox.height.
  cbn.
  destruct (0 <? wv) eqn:Ew; cbn;
    destruct (scaled (width image) f) as [vf|] eqn:Ef; cbn;
    destruct (scaled (width image) g) as [vg|] eqn:Eg; cbn;
    destruct (0 <? hv) eqn:Eh; cbn;
    destruct (scaled (height image) f) as [uf|] eqn:Ff; cbn;
    destruct (scaled (height image) g) as [ug|] eqn:Fg; cbn;
    intros R1 R2 Hw Hh; try discriminate;
    try (pose proof (Hw (proj1 (Z.ltb_lt _ _) Ew)) as Hw';
         apply Z.ltb_lt in Hw');
    try (pose proof (Hh (proj1 (Z.ltb_lt _ _) Eh)) as Hh';
         apply Z.ltb_lt in Hh');
    repeat progress (rewrite ?Hw', ?Hh', ?Ew, ?Eh, ?Eg, ?Fg; cbn);
    reflexivity.
Qed.

(** An 800 x 600 original: the 2 button, then the 1/2 button. *)
Lemma last_press_wins_witness :
  let image := {| width := 800; height := 600 |} in
  let sl := panel 800 600 20 2000 2000 in
  adjust_sliders image (state_of (adjust_sliders image sl (IntFactor 2)))
    (FloatFactor 4)
  = adjust_sliders image sl (FloatFactor 4).
Proof.
  apply (last_press_wins {| width := 800; height := 600 |}
           (panel 800 600 20 2000 2000) (IntFactor 2) (FloatFactor 4)).
  - vm_compute. reflexivity.
  - vm_compute. reflexivity.
  - intros _. vm_compute. reflexivity.
  - intros _. vm_compute. reflexivity.
Defined.

(** ** What setup_ui builds *)

(** [keeps_chrome m]: [m] leaves layout, connections, focus and result of the
    dialog alone. *)
Definition keeps_chrome (m : Method) : Prop :=
  forall w, chrome (dialog (state_of (m w))) = chrome (dialog w).

Lemma keeps_chrome_seq (m1 m2 : Method) :
  keeps_chrome m1 -> keeps_chrome m2 -> keeps_chrome (m1 >>> m2).
Proof.
  intros H1 H2 w. unfold seq. specialize (H1 w).
  destruct (m1 w) as [w1|e w1]; cbn in *; [|exact H1].
  by rewrite H2.
Qed.

Lemma keeps_chrome_populate_sliders : keeps_chrome populate_sliders.
Proof.
  intros w. unfold populate_sliders.
  by destruct (ImageSliderBox.populate (config w) (_sliders (dialog w))).
Qed.

Lemma keeps_chrome_add_items : keeps_chrome add_items.
Proof. intros w. unfold add_items. by repeat case_match. Qed.

Lemma keeps_chrome_base : keeps_chrome SettingsDialog_set_initial_values.
Proof.
  apply keeps_chrome_seq;
    [apply keeps_chrome_populate_sliders | apply keeps_chrome_add_items].
Qed.

Lemma keeps_chrome_set_initial_values index_of :
  keeps_chrome (set_initial_values index_of).
Proof.
  intros w. unfold set_initial_values.
  destruct (kind (dialog w)) as [fs rc notes|image|show pattern cbs].
  - destruct (as_bool (config w !! "bulk_reconvert_webp")); [|done].
    by rewrite keeps_chrome_base.
  - apply keeps_chrome_base.
  - revert w. apply keeps_chrome_seq; [apply keeps_chrome_base|].
    intros w. by repeat case_match.
Qed.

Lemma populate_main_vbox_eq w :
  populate_main_vbox w
  = Done (set_dialog w
            (with_main_vbox (dialog w)
               (_main_vbox (dialog w) ++ [W_sliders; W_presets_editor]
                ++ own_widgets (kind (dialog w))))).
Proof.
  unfold populate_main_vbox, SettingsDialog_populate_main_vbox, addWidget,
    seq, on_dialog.
  destruct (kind (dialog w)) eqn:Hk; cbn; unfold set_dialog, with_main_vbox;
    cbn; rewrite ?Hk; by rewrite <- !app_assoc.
Qed.

(** When [setup_ui] completes the dialog has its layout, both buttons are
    connected and OK has the focus; under what the box held before there are
    the sliders and the presets editor, in this order, and after them what
    the subclass adds.  The box is appended to, not rebuilt: a second
    set-up of the same dialog adds every widget once more. *)
Theorem setup_ui_lays_out index_of w w' :
  setup_ui index_of w = Done w' ->
  has_layout (dialog w') = true
  /\ accepted_connected (dialog w') = true
  /\ rejected_connected (dialog w') = true
  /\ ok_focused (dialog w') = true
  /\ _main_vbox (dialog w')
     = _main_vbox (dialog w) ++ [W_sliders; W_presets_editor]
       ++ own_widgets (kind (dialog w)).
Proof.
  unfold setup_ui, seq, emit, create_main_layout, setup_logic, on_dialog.
  cbn [and_then dialog config effects]. rewrite populate_main_vbox_eq.
  cbn [and_then dialog config effects set_dialog].
  match goal with |- context [set_initial_values index_of ?w3] =>
    pose proof (keeps_chrome_set_initial_values index_of w3) as Hc;
    destruct (set_initial_values index_of w3) as [w4|e w4]
  end; [|discriminate].
  cbn [and_then]. intros [= <-]. cbn in Hc. unfold chrome in Hc.
  cbn [dialog]. by simplify_eq.
Qed.

(** The sample paste dialog, fresh from its constructor. *)
Lemma setup_ui_lays_out_witness :
  exists w',
    setup_ui (fun _ => 0)
      (sample_world (PasteDialog {| width := 800; height := 600 |})) = Done w'
    /\ _main_vbox (dialog w') = [W_sliders; W_presets_editor; W_scale_settings].
Proof.
  eexists. split; [vm_compute; reflexivity|].
  apply (setup_ui_lays_out (fun _ => 0)
           (sample_world (PasteDialog {| width := 800; height := 600 |}))).
  vm_compute. reflexivity.
Defined.

(** ** The life of a dialog *)





